(** * T-Radex: a shallow embedding of the signal and risk pipeline

    The development follows the Python sources file by file:
    - [strategies.py]: [TradeSignal], the [Strategy] classes and
      [StrategyFactory];
    - [risk_manager.py]: [RiskManager];
    - [bot.py] and the part of [dashboard.py] it calls.

    Numbers are exact rationals ([Q]) where Python uses numbers read from
    the YAML configuration or from candles; window lengths are integers
    ([Z]).  A Python exception is a value of [exn] carried by [result].
    The TA-Lib indicators ([BBANDS], [RSI], [SMA]) are not part of the
    repository: the strategies are written in a Section that takes them as
    variables. *)

From Stdlib Require Import ZArith QArith List String Bool Lia.
From stdpp Require Import base option gmap strings.
Import ListNotations.

Local Open Scope Z_scope.
Local Open Scope Q_scope.

(** ** Python values the code relies on *)

Module Py.

(** The exceptions that the modelled code can raise. *)
Inductive exn : Type :=
| AttributeError (name : string)
| KeyError (key : Z)
| IndexError
| ValueError (msg : string)
| TypeError
| ZeroDivisionError
| NotImplementedError
| Exception (msg : string).

Inductive result (A : Type) : Type :=
| Ok (a : A)
| Err (e : exn).
Arguments Ok {A} a.
Arguments Err {A} e.

Definition bind {A B : Type} (r : result A) (k : A -> result B) : result B :=
  match r with
  | Ok a => k a
  | Err e => Err e
  end.

(** [a < b] and [a <= b] on numbers, as booleans. *)
Definition ltb (a b : Q) : bool := negb (Qle_bool b a).
Definition leb (a b : Q) : bool := Qle_bool a b.

(** Comparisons with a value that may be NaN ([None]): every comparison
    with NaN is false. *)
Definition nan_ltb (a b : option Q) : bool :=
  match a, b with
  | Some x, Some y => ltb x y
  | _, _ => false
  end.
Definition nan_leb (a b : option Q) : bool :=
  match a, b with
  | Some x, Some y => leb x y
  | _, _ => false
  end.

(** The builtin [min(a, b)]: the first argument unless the second is
    strictly smaller. *)
Definition min (a b : Q) : Q := if ltb b a then b else a.

(** [seq.iloc[-i]] for [i >= 1] on a sequence with positional access. *)
Definition iloc_neg {A : Type} (l : list A) (i : nat) : result A :=
  match i with
  | O => Err IndexError
  | S _ =>
      if (i <=? length l)%nat
      then match nth_error l (length l - i) with
           | Some a => Ok a
           | None => Err IndexError
           end
      else Err IndexError
  end.

End Py.

Notation "'do' x <- c1 ; c2" := (Py.bind c1 (fun x => c2))
  (at level 10, x name, c1 at level 100, c2 at level 200).

(** ** strategies.py: the signal record *)

Inductive Side : Type := buy | sell.
Inductive OrderType : Type := limit | market.

(** [@dataclass class TradeSignal]; [price = None] stands for a market
    order. *)
Record TradeSignal : Type := mkTradeSignal {
  symbol : string;
  side : Side;
  amount : Q;
  price : option Q;
  type_ : OrderType;
  confidence : Q
}.

(** ** risk_manager.py *)

Module Risk.

(** The attributes of a [RiskManager] that its methods read or write. *)
Record RiskManager : Type := mkRiskManager {
  daily_pnl : Q;
  max_daily_loss : Q
}.

(** [RiskManager.__init__]: the running total starts at zero. *)
Definition init (max_loss : Q) : RiskManager :=
  {| daily_pnl := 0; max_daily_loss := max_loss |}.

(** A method is a function from the object's state to a returned value
    and the object's state afterwards. *)
Definition method (A : Type) : Type := RiskManager -> A * RiskManager.

Definition approve_trade (signal : TradeSignal) : method bool :=
  fun self =>
    if Py.ltb (daily_pnl self) (- max_daily_loss self)
    then (false, self)
    else (true, self).

Definition update_pnl (amount : Q) : method unit :=
  fun self =>
    (tt, {| daily_pnl := daily_pnl self + amount;
            max_daily_loss := max_daily_loss self |}).

Definition reset_daily_pnl : method unit :=
  fun self =>
    (tt, {| daily_pnl := 0; max_daily_loss := max_daily_loss self |}).

(** The public operations of the class, and a run of them. *)
Inductive call : Type :=
| CallApprove (signal : TradeSignal)
| CallUpdate (amount : Q)
| CallReset.

Definition exec (c : call) (self : RiskManager) : option bool * RiskManager :=
  match c with
  | CallApprove s => let '(b, self') := approve_trade s self in (Some b, self')
  | CallUpdate a => let '(_, self') := update_pnl a self in (None, self')
  | CallReset => let '(_, self') := reset_daily_pnl self in (None, self')
  end.

(** Runs the calls in order; returns what each [approve_trade] answered. *)
Fixpoint run (cs : list call) (self : RiskManager) : list bool * RiskManager :=
  match cs with
  | [] => ([], self)
  | c :: cs' =>
      let '(r, self') := exec c self in
      let '(rs, self'') := run cs' self' in
      (match r with Some b => b :: rs | None => rs end, self'')
  end.

(** The two states of the gate. *)
Definition halted (self : RiskManager) : Prop :=
  daily_pnl self < - max_daily_loss self.
Definition enabled (self : RiskManager) : Prop := ~ halted self.

End Risk.

(** ** strategies.py: configuration, candles and frames *)

(** A strategy's configuration dictionary, one optional entry per key the
    code reads with [config.get(key, default)]. *)
Record Config : Type := mkConfig {
  cfg_type : option string;
  cfg_min_confidence : option Q;
  cfg_bb_window : option Z;
  cfg_bb_std : option Q;
  cfg_rsi_window : option Z;
  cfg_fast_ma : option Z;
  cfg_slow_ma : option Z;
  cfg_resistance_window : option Z;
  cfg_confirmation_candles : option Z;
  cfg_risk_per_trade : option Q;
  cfg_account_size : option Q
}.

(** [config.get(key, d)] *)
Definition get {A : Type} (entry : option A) (d : A) : A :=
  match entry with
  | Some v => v
  | None => d
  end.

(** The empty dictionary [{}]. *)
Definition empty_config : Config :=
  mkConfig None None None None None None None None None None None.

(** One row of the frame built by [get_ohlcv]. *)
Record Candle : Type := mkCandle {
  timestamp : Z;
  open_ : Q;
  high : Q;
  low : Q;
  close : Q;
  volume : Q
}.

(** How the rows of a frame are labelled.  [get_ohlcv] builds the frame
    from a list of rows, which gives it the default [RangeIndex] with the
    labels 0, 1, ...; [LabelIndex] stands for an index whose labels are
    not integers (timestamps, say). *)
Inductive IndexKind : Type := RangeIndex | LabelIndex.

Record DataFrame : Type := mkDataFrame {
  rows : list Candle;
  index : IndexKind
}.

Definition column (f : Candle -> Q) (data : DataFrame) : list Q :=
  map f (rows data).

(** [len(data)] *)
Definition len (data : DataFrame) : Z := Z.of_nat (length (rows data)).

Module Pandas.

(** [series[k]] with an integer key.  On an integer index the key is a
    label, so a key outside 0 .. len-1 raises [KeyError]; on any other
    index pandas falls back to the position, where a negative key counts
    from the end. *)
Definition getitem {A : Type} (idx : IndexKind) (s : list A) (k : Z)
  : Py.result A :=
  match idx with
  | RangeIndex =>
      if (0 <=? k)%Z
      then match nth_error s (Z.to_nat k) with
           | Some a => Py.Ok a
           | None => Py.Err (Py.KeyError k)
           end
      else Py.Err (Py.KeyError k)
  | LabelIndex =>
      if (0 <=? k)%Z
      then match nth_error s (Z.to_nat k) with
           | Some a => Py.Ok a
           | None => Py.Err Py.IndexError
           end
      else Py.iloc_neg s (Z.to_nat (- k))
  end.

(** The value of a computed column in [data.iloc[-1]]; the column is as
    long as the frame, and a frame without rows has no last row. *)
Definition last_value {A : Type} (s : list (option A)) : option A :=
  match Py.iloc_neg s 1 with
  | Py.Ok v => v
  | Py.Err _ => None
  end.

(** The trailing window of [w] values that ends at position [i]. *)
Definition window (w i : nat) (xs : list Q) : list Q :=
  firstn w (skipn (S i - w) xs).

Definition fold1 (op : Q -> Q -> Q) (xs : list Q) : option Q :=
  match xs with
  | [] => None
  | x :: xs' => Some (fold_left op xs' x)
  end.

Definition qmax (a b : Q) : Q := if Py.ltb a b then b else a.
Definition qmin (a b : Q) : Q := if Py.ltb b a then b else a.

(** [series.rolling(w).max()] and [.min()]: NaN until [w] values are
    there; a negative window is refused. *)
Definition rolling (op : Q -> Q -> Q) (w : Z) (xs : list Q)
  : Py.result (list (option Q)) :=
  if (w <? 0)%Z then Py.Err (Py.ValueError "window must be an integer 0 or greater")
  else
    let n := Z.to_nat w in
    Py.Ok (map (fun i => if (S i <? n)%nat then None
                         else fold1 op (window n i xs))
               (seq 0 (length xs))).

Definition rolling_max := rolling qmax.
Definition rolling_min := rolling qmin.

Definition sum (xs : list Q) : Q := fold_left Qplus xs 0.

(** [series.mean()]: NaN on an empty series. *)
Definition mean (xs : list Q) : option Q :=
  match xs with
  | [] => None
  | _ => Some (sum xs / inject_Z (Z.of_nat (length xs)))
  end.

(** [np.where(a > b, 1, -1)] *)
Definition where_gt (a b : list (option Q)) : list Z :=
  map (fun '(x, y) => if Py.nan_ltb y x then 1%Z else (-1)%Z) (combine a b).

(** [series.diff()]: the first entry is NaN. *)
Fixpoint diff_from (prev : Z) (xs : list Z) : list (option Z) :=
  match xs with
  | [] => []
  | x :: xs' => Some (x - prev)%Z :: diff_from x xs'
  end.
Definition diff (xs : list Z) : list (option Z) :=
  match xs with
  | [] => []
  | x :: xs' => None :: diff_from x xs'
  end.

End Pandas.

(** ** strategies.py: the classes *)

(** The four classes of the module and where each method is defined.
    [MeanReversionStrategy], [MomentumStrategy] and [BreakoutStrategy] each
    derive from [Strategy] and from nothing else. *)
Inductive Class : Type :=
| StrategyBase
| MeanReversionStrategy
| MomentumStrategy
| BreakoutStrategy.

Definition base (c : Class) : option Class :=
  match c with
  | StrategyBase => None
  | _ => Some StrategyBase
  end.

(** The names bound in the body of each class statement. *)
Definition defines (c : Class) : list string :=
  match c with
  | StrategyBase => ["__init__"; "analyze"; "_validate_signal"]
  | MeanReversionStrategy => ["__init__"; "analyze"; "_calculate_position_size"]
  | MomentumStrategy => ["__init__"; "analyze"]
  | BreakoutStrategy => ["__init__"; "analyze"]
  end%string.

Definition has_name (c : Class) (name : string) : bool :=
  existsb (String.eqb name) (defines c).

(** Attribute lookup of a method on an instance of [c]: the class itself,
    then its base; [AttributeError] when neither binds the name. *)
Definition lookup_method (c : Class) (name : string) : Py.result Class :=
  if has_name c name then Py.Ok c
  else match base c with
       | Some b => if has_name b name then Py.Ok b
                   else Py.Err (Py.AttributeError name)
       | None => Py.Err (Py.AttributeError name)
       end.

(** An instance: its class and the dictionary kept in [self.config]. *)
Record Strategy : Type := mkStrategy {
  cls : Class;
  config : Config
}.

(** The attributes set by the [__init__] methods. *)
Definition min_confidence (self : Strategy) : Q :=
  get (cfg_min_confidence (config self)) (7 # 10).
Definition bb_window (self : Strategy) : Z := get (cfg_bb_window (config self)) 20%Z.
Definition bb_std (self : Strategy) : Q := get (cfg_bb_std (config self)) 2.
Definition rsi_window (self : Strategy) : Z := get (cfg_rsi_window (config self)) 14%Z.
Definition fast_ma (self : Strategy) : Z := get (cfg_fast_ma (config self)) 9%Z.
Definition slow_ma (self : Strategy) : Z := get (cfg_slow_ma (config self)) 21%Z.
Definition resistance_window (self : Strategy) : Z :=
  get (cfg_resistance_window (config self)) 14%Z.
Definition confirmation_candles (self : Strategy) : Z :=
  get (cfg_confirmation_candles (config self)) 2%Z.

(** [Strategy._validate_signal] *)
Definition _validate_signal (self : Strategy) (signal : TradeSignal) : bool :=
  Py.leb (min_confidence self) (confidence signal).

(** The body of [MeanReversionStrategy._calculate_position_size]. *)
Definition _calculate_position_size (self : Strategy) (price : Q) : Q :=
  let risk_amount := get (cfg_risk_per_trade (config self)) (1 # 100) in
  let account_size := get (cfg_account_size (config self)) 10000 in
  (account_size * risk_amount) / price.

(** The expression [self._calculate_position_size(price)]: the method is
    looked up on the class of [self] first. *)
Definition call_calculate_position_size (self : Strategy) (price : Q)
  : Py.result Q :=
  do _ <- lookup_method (cls self) "_calculate_position_size";
  Py.Ok (_calculate_position_size self price).

(** [all(close.iloc[-i] cmp level.iloc[-i] for i in range(1, n + 1))],
    stopping at the first false comparison. *)
Fixpoint all_closes (cmp : option Q -> option Q -> bool)
    (closes : list Q) (level : list (option Q)) (idxs : list nat)
  : Py.result bool :=
  match idxs with
  | [] => Py.Ok true
  | i :: idxs' =>
      do c <- Py.iloc_neg closes i;
      do r <- Py.iloc_neg level i;
      if cmp (Some c) r then all_closes cmp closes level idxs'
      else Py.Ok false
  end.

(** [range(1, n + 1)] *)
Definition range1 (n : Z) : list nat := seq 1 (Z.to_nat n).

(** ** strategies.py: the three [analyze] methods *)

Section Analyze.

(** TA-Lib, as called through [talib.abstract]: each function takes the
    close prices and a period and returns series as long as its input,
    NaN ([None]) where the value is not defined yet, or raises. *)
Variable BBANDS : list Q -> Z -> Q -> Q ->
  Py.result (list (option Q) * list (option Q) * list (option Q)).
Variable RSI : list Q -> Z -> Py.result (list (option Q)).
Variable SMA : list Q -> Z -> Py.result (list (option Q)).

(** The signals [MeanReversionStrategy.analyze] collects before the
    final comprehension. *)
Definition mean_reversion_signals (self : Strategy) (sym : string)
    (data : DataFrame) : Py.result (list TradeSignal) :=
  do bands <- BBANDS (column close data) (bb_window self) (bb_std self) (bb_std self);
  let '(upper_bb, middle_bb, lower_bb) := bands in
  do rsi <- RSI (column close data) (rsi_window self);
  do latest <- Py.iloc_neg (rows data) 1;
  let latest_close := Some (close latest) in
  let latest_lower := Pandas.last_value lower_bb in
  let latest_upper := Pandas.last_value upper_bb in
  match Pandas.last_value rsi with
  | None => Py.Ok []
  | Some latest_rsi =>
      if Py.nan_leb latest_close latest_lower && Py.ltb latest_rsi 30 then
        do size <- call_calculate_position_size self (close latest);
        Py.Ok [ {| symbol := sym; side := buy; amount := size;
                   price := Some (close latest * 1.002);
                   type_ := limit;
                   confidence := Py.min 1 ((30 - latest_rsi) / 30) |} ]
      else if Py.nan_leb latest_upper latest_close && Py.ltb 70 latest_rsi then
        do size <- call_calculate_position_size self (close latest);
        Py.Ok [ {| symbol := sym; side := sell; amount := size;
                   price := Some (close latest * 0.998);
                   type_ := limit;
                   confidence := Py.min 1 ((latest_rsi - 70) / 30) |} ]
      else Py.Ok []
  end.

Definition analyze_mean_reversion (self : Strategy) (sym : string)
    (data : DataFrame) : Py.result (list TradeSignal) :=
  if (len data <? Z.max (bb_window self) (rsi_window self) * 2)%Z then Py.Ok []
  else
    do signals <- mean_reversion_signals self sym data;
    Py.Ok (List.filter (_validate_signal self) signals).

Definition analyze_momentum (self : Strategy) (sym : string)
    (data : DataFrame) : Py.result (list TradeSignal) :=
  if (len data <? slow_ma self * 2)%Z then Py.Ok []
  else
    do fast <- SMA (column close data) (fast_ma self);
    do slow <- SMA (column close data) (slow_ma self);
    let position := Pandas.where_gt fast slow in
    let crossover := Pandas.diff position in
    do latest <- Py.iloc_neg (rows data) 1;
    match Pandas.last_value crossover with
    | None => Py.Ok []
    | Some latest_crossover =>
        if (0 <? latest_crossover)%Z then
          do size <- call_calculate_position_size self (close latest);
          Py.Ok [ {| symbol := sym; side := buy; amount := size;
                     price := None; type_ := market; confidence := 0.8 |} ]
        else if (latest_crossover <? 0)%Z then
          do size <- call_calculate_position_size self (close latest);
          Py.Ok [ {| symbol := sym; side := sell; amount := size;
                     price := None; type_ := market; confidence := 0.8 |} ]
        else Py.Ok []
    end.

Definition analyze_breakout (self : Strategy) (sym : string)
    (data : DataFrame) : Py.result (list TradeSignal) :=
  if (len data <? resistance_window self * 2)%Z then Py.Ok []
  else
    do resistance <- Pandas.rolling_max (resistance_window self) (column high data);
    do support <- Pandas.rolling_min (resistance_window self) (column low data);
    do latest <- Py.iloc_neg (rows data) 1;
    do prev <- Py.iloc_neg (rows data) 2;
    let volume_mean := Pandas.mean (column volume data) in
    let confirm_range := range1 (confirmation_candles self) in
    do resistance_prev <- Pandas.getitem (index data) resistance (-2);
    if Py.nan_ltb resistance_prev (Some (close latest))
       && Py.nan_ltb volume_mean (Some (volume latest)) then
      do confirmed <- all_closes (fun c r => Py.nan_ltb r c)
                        (column close data) resistance confirm_range;
      if confirmed then
        do size <- call_calculate_position_size self (close latest);
        match resistance_prev with
        | Some r =>
            Py.Ok [ {| symbol := sym; side := buy; amount := size;
                       price := Some (r * 1.005);
                       type_ := limit; confidence := 0.9 |} ]
        | None => Py.Ok []  (* not reached: NaN fails the comparison above *)
        end
      else Py.Ok []
    else
      do support_prev <- Pandas.getitem (index data) support (-2);
      if Py.nan_ltb (Some (close latest)) support_prev
         && Py.nan_ltb volume_mean (Some (volume latest)) then
        do confirmed <- all_closes (fun c s => Py.nan_ltb c s)
                          (column close data) support confirm_range;
        if confirmed then
          do size <- call_calculate_position_size self (close latest);
          match support_prev with
          | Some s =>
              Py.Ok [ {| symbol := sym; side := sell; amount := size;
                         price := Some (s * 0.995);
                         type_ := limit; confidence := 0.9 |} ]
          | None => Py.Ok []  (* not reached, as above *)
          end
        else Py.Ok []
      else Py.Ok [].

(** [strategy.analyze(symbol, data)]: the method of the instance's
    class; the base class raises. *)
Definition analyze (self : Strategy) (sym : string) (data : DataFrame)
  : Py.result (list TradeSignal) :=
  match cls self with
  | StrategyBase => Py.Err Py.NotImplementedError
  | MeanReversionStrategy => analyze_mean_reversion self sym data
  | MomentumStrategy => analyze_momentum self sym data
  | BreakoutStrategy => analyze_breakout self sym data
  end.

End Analyze.

(** ** strategies.py: the factory *)

Module StrategyFactory.

Definition known_kinds : list string :=
  ["mean_reversion"; "momentum"; "breakout"]%string.

Definition create (config : Config) : Py.result Strategy :=
  let strategy_type := get (cfg_type config) "mean_reversion"%string in
  if String.eqb strategy_type "mean_reversion" then
    Py.Ok (mkStrategy MeanReversionStrategy config)
  else if String.eqb strategy_type "momentum" then
    Py.Ok (mkStrategy MomentumStrategy config)
  else if String.eqb strategy_type "breakout" then
    Py.Ok (mkStrategy BreakoutStrategy config)
  else
    Py.Err (Py.ValueError ("Unknown strategy type: " ++ strategy_type)).

End StrategyFactory.

(** ** dashboard.py: what [record_trade] does with the dictionary *)

(** The values found in an order dictionary. *)
Inductive PyVal : Type :=
| VNum (q : Q)
| VStr (s : string)
| VNone.

Module Dashboard.

Definition required_fields : list string :=
  ["id"; "symbol"; "side"; "entry_price"; "amount"]%string.

(** The arithmetic done when the dictionary has an [exit_price]. *)
Definition exit_arithmetic (trade : gmap string PyVal) : Py.result unit :=
  match trade !! "exit_price"%string with
  | None => Py.Ok tt
  | Some exit_price =>
      match exit_price, trade !! "entry_price"%string, trade !! "amount"%string with
      | VNum x, Some (VNum e), Some (VNum a) =>
          if Qeq_bool e 0 then Py.Err Py.ZeroDivisionError else Py.Ok tt
      | _, _, _ => Py.Err Py.TypeError
      end
  end.

(** [','.join(trade.get('tags', []))] needs something to iterate over. *)
Definition join_tags (trade : gmap string PyVal) : Py.result unit :=
  match trade !! "tags"%string with
  | None | Some (VStr _) => Py.Ok tt
  | Some _ => Py.Err Py.TypeError
  end.

(** [PerformanceDashboard.record_trade], up to the [INSERT OR REPLACE]
    statement.  The list is the history of the dictionaries handed to that
    statement, oldest first, and not the content of the table: a later
    write with the same [id] replaces the earlier row there, and the
    statement itself can still fail on a constraint of the schema.  The
    message of the [ValueError] is cut after its fixed part; the source
    goes on to print the set of missing fields. *)
Definition record_trade (trade : gmap string PyVal)
    (table : list (gmap string PyVal))
  : Py.result (list (gmap string PyVal)) :=
  if forallb (fun field => bool_decide (is_Some (trade !! field))) required_fields
  then
    do _ <- exit_arithmetic trade;
    do _ <- join_tags trade;
    Py.Ok (table ++ [trade])
  else Py.Err (Py.ValueError "Missing required fields").

End Dashboard.

(** ** bot.py *)

Module Bot.

(** What the loop did, in order: calls to the venue, to the recorder and
    to [update_pnl]. *)
Inductive event : Type :=
| Executed (signal : TradeSignal)
| Recorded (order : gmap string PyVal)
| PnlUpdated (amount : Q).

Section Loop.

(** The execution venue: a state of its own and [execute_order], which
    returns an order dictionary or raises. *)
Variable Venue : Type.
Variable execute_order :
  TradeSignal -> Venue -> Py.result (gmap string PyVal) * Venue.

(** The objects a [TradingBot] holds, and the log of its calls. *)
Record TradingBot : Type := mkTradingBot {
  strategies : list Strategy;
  risk : Risk.RiskManager;
  exchange : Venue;
  dashboard : list (gmap string PyVal);
  log : list event
}.

(** One pass of the body of the [for] loop of [_execute_trades]; an
    exception leaves the objects as they were when it was raised. *)
Definition execute_trade (signal : TradeSignal) (bot : TradingBot)
  : option Py.exn * TradingBot :=
  let '(approved, risk1) := Risk.approve_trade signal (risk bot) in
  if approved then
    let '(r, venue1) := execute_order signal (exchange bot) in
    let bot1 := {| strategies := strategies bot; risk := risk1;
                   exchange := venue1; dashboard := dashboard bot;
                   log := log bot ++ [Executed signal] |} in
    match r with
    | Py.Err e => (Some e, bot1)
    | Py.Ok order =>
        let log2 := log bot1 ++ [Recorded order] in
        match Dashboard.record_trade order (dashboard bot1) with
        | Py.Err e =>
            (Some e, {| strategies := strategies bot1; risk := risk bot1;
                        exchange := exchange bot1;
                        dashboard := dashboard bot1; log := log2 |})
        | Py.Ok table =>
            let bot2 := {| strategies := strategies bot1; risk := risk bot1;
                           exchange := exchange bot1;
                           dashboard := table; log := log2 |} in
            (* order.get('pnl', 0) *)
            match get (order !! "pnl"%string) (VNum 0) with
            | VNum pnl =>
                let '(_, risk3) := Risk.update_pnl pnl (risk bot2) in
                (None, {| strategies := strategies bot2; risk := risk3;
                          exchange := exchange bot2;
                          dashboard := dashboard bot2;
                          log := log bot2 ++ [PnlUpdated pnl] |})
            | _ => (Some Py.TypeError, bot2)
            end
        end
    end
  else
    (None, {| strategies := strategies bot; risk := risk1;
              exchange := exchange bot; dashboard := dashboard bot;
              log := log bot |}).

(** [TradingBot._execute_trades] *)
Fixpoint _execute_trades (signals : list TradeSignal) (bot : TradingBot)
  : option Py.exn * TradingBot :=
  match signals with
  | [] => (None, bot)
  | signal :: rest =>
      match execute_trade signal bot with
      | (Some e, bot') => (Some e, bot')
      | (None, bot') => _execute_trades rest bot'
      end
  end.

End Loop.

Arguments mkTradingBot {Venue}.
Arguments strategies {Venue}.
Arguments risk {Venue}.
Arguments exchange {Venue}.
Arguments dashboard {Venue}.
Arguments log {Venue}.
Arguments execute_trade {Venue}.
Arguments _execute_trades {Venue}.

(** The list comprehension of [TradingBot.__init__]: the first failing
    [StrategyFactory.create] ends the construction. *)
Fixpoint create_strategies (configs : list Config) : Py.result (list Strategy) :=
  match configs with
  | [] => Py.Ok []
  | c :: rest =>
      do s <- StrategyFactory.create c;
      do ss <- create_strategies rest;
      Py.Ok (s :: ss)
  end.

(** The [__main__] block: [bot = TradingBot()] and then [bot.run()], which
    is reached only when the constructor returns. *)
Inductive startup : Type :=
| Aborted (e : Py.exn)
| Running (strategies : list Strategy).

Definition main (configs : list Config) : startup :=
  match create_strategies configs with
  | Py.Err e => Aborted e
  | Py.Ok ss => Running ss
  end.

End Bot.

(** ** Indicator instances used to run the strategies *)

Module Indicators.

(** TA-Lib's [SMA]: the mean of the last [timeperiod] values, NaN before
    that; periods below 2 are a bad parameter. *)
Definition sma (values : list Q) (timeperiod : Z) : Py.result (list (option Q)) :=
  if (timeperiod <? 2)%Z then Py.Err (Py.Exception "Bad Parameter (TA_BAD_PARAM)")
  else
    let n := Z.to_nat timeperiod in
    Py.Ok (map (fun i => if (S i <? n)%nat then None
                         else Some (Pandas.sum (Pandas.window n i values)
                                    / inject_Z timeperiod))
               (seq 0 (length values))).

(** Indicators patched to fixed values, as a unit test of a strategy
    would patch [talib]: every entry of the returned series is the given
    value. *)
Definition fixed_bbands (upper middle lower : Q)
    (values : list Q) (timeperiod : Z) (nbdevup nbdevdn : Q)
  : Py.result (list (option Q) * list (option Q) * list (option Q)) :=
  Py.Ok (map (fun _ => Some upper) values,
         map (fun _ => Some middle) values,
         map (fun _ => Some lower) values).

Definition fixed_rsi (rsi : Q) (values : list Q) (timeperiod : Z)
  : Py.result (list (option Q)) :=
  Py.Ok (map (fun _ => Some rsi) values).

End Indicators.

(** ** Frames used in the examples *)

Module Samples.

(** A candle whose open, high, low and close are all [p]. *)
Definition flat (t : Z) (p v : Q) : Candle := mkCandle t p p p p v.

Fixpoint candles_from (t : Z) (closes : list Q) (v : Q) : list Candle :=
  match closes with
  | [] => []
  | p :: rest => flat t p v :: candles_from (t + 1) rest v
  end.

(** The frame [get_ohlcv] builds from rows with the given closes. *)
Definition frame (closes : list Q) : DataFrame :=
  mkDataFrame (candles_from 0 closes 1) RangeIndex.

Definition a_signal (conf : Q) : TradeSignal :=
  mkTradeSignal "BTC/USDT" buy 1 (Some 100) limit conf.

Definition mean_reversion_default : Strategy :=
  mkStrategy MeanReversionStrategy empty_config.
Definition momentum_default : Strategy :=
  mkStrategy MomentumStrategy empty_config.
Definition breakout_default : Strategy :=
  mkStrategy BreakoutStrategy empty_config.

(** A momentum configuration whose [fast_ma] is the longer window. *)
Definition momentum_5_2 : Strategy :=
  mkStrategy MomentumStrategy
    (mkConfig (Some "momentum"%string) None None None None
              (Some 5%Z) (Some 2%Z) None None None None).

(** A momentum configuration with a floor of 0.95. *)
Definition momentum_floor_95 : Strategy :=
  mkStrategy MomentumStrategy
    (mkConfig (Some "momentum"%string) (Some 0.95) None None None
              None None None None None None).

(** Forty candles closing at 100. *)
Definition flat_40 : DataFrame := frame (repeat 100 40).

(** Closes 100, 99, ..., 60 and then a last close of 1000: the fast
    average is under the slow one up to the last candle and over it
    there. *)
Definition falling_then_spike : DataFrame :=
  frame (map (fun i => inject_Z (100 - Z.of_nat i)) (seq 0 41) ++ [1000]).

(** The same closes without the spike. *)
Definition falling : DataFrame :=
  frame (map (fun i => inject_Z (100 - Z.of_nat i)) (seq 0 42)).

(** Twenty-eight candles at 100, then closes (and highs) of 110 and 120,
    the last one on ten times the volume. *)
Definition two_bar_breakout (idx : IndexKind) : DataFrame :=
  mkDataFrame
    (candles_from 0 (repeat 100 28) 1 ++ [flat 28 110 1; flat 29 120 10])
    idx.

(** Five candles, fewer than twice the longer window of [momentum_5_2]
    and more than twice its [slow_ma]. *)
Definition five_candles : DataFrame := frame [10; 10; 10; 1; 1].

Definition three_candles : DataFrame := frame [10; 10; 10].

(** Thirty candles whose highs stay at 100 while the last two close at
    110 and 120, above their own highs. *)
Definition closes_over_highs : DataFrame :=
  mkDataFrame
    (candles_from 0 (repeat 100 28) 1
     ++ [mkCandle 28 100 100 100 110 1; mkCandle 29 100 100 100 120 10])
    LabelIndex.

(** Bands patched to 110, 105 and 100. *)
Definition bands := Indicators.fixed_bbands 110 105 100.

(** An order the venue rejected, reported with a loss of 5. *)
Definition rejected_order : gmap string PyVal :=
  {[ "id" := VStr "o-1"; "symbol" := VStr "BTC/USDT"; "side" := VStr "buy";
     "entry_price" := VNum 100; "amount" := VNum 1;
     "status" := VStr "rejected"; "pnl" := VNum (-5) ]}%string.

(** A venue that rejects every order. *)
Definition rejecting_venue (signal : TradeSignal) (v : unit)
  : Py.result (gmap string PyVal) * unit :=
  (Py.Ok rejected_order, v).

(** A bot at start, with a daily loss limit of 100. *)
Definition fresh_bot : Bot.TradingBot unit :=
  Bot.mkTradingBot [] (Risk.init 100) tt [] [].

End Samples.

(** ** Notions used to state the properties *)

(** The sentence [update_pnl is the only operation that mutates
    running_pnl], read over the public operations of the class. *)
Definition only_update_pnl_mutates : Prop :=
  forall (c : Risk.call) (self : Risk.RiskManager),
    ~ Risk.daily_pnl (snd (Risk.exec c self)) == Risk.daily_pnl self ->
    exists amount, c = Risk.CallUpdate amount.

(** The longest window a strategy of each class configures. *)
Definition longest_window (self : Strategy) : Z :=
  match cls self with
  | StrategyBase => 0
  | MeanReversionStrategy => Z.max (bb_window self) (rsi_window self)
  | MomentumStrategy => Z.max (fast_ma self) (slow_ma self)
  | BreakoutStrategy => resistance_window self
  end%Z.

(** The window that the first test of each [analyze] doubles. *)
Definition guard_window (self : Strategy) : Z :=
  match cls self with
  | StrategyBase => 0
  | MeanReversionStrategy => Z.max (bb_window self) (rsi_window self)
  | MomentumStrategy => slow_ma self
  | BreakoutStrategy => resistance_window self
  end%Z.

(** The sentence [a series shorter than twice the longest configured
    window gives an empty result], for the three strategies and whatever
    the indicators are. *)
Definition short_series_give_nothing : Prop :=
  forall BBANDS RSI SMA (self : Strategy) (sym : string) (data : DataFrame),
    cls self <> StrategyBase ->
    (len data < 2 * longest_window self)%Z ->
    analyze BBANDS RSI SMA self sym data = Py.Ok [].



(** ** utils.py *)

(** [calculate_pnl(entry_price, exit_price, amount)] *)
Definition calculate_pnl (entry_price exit_price amount : Q) : Q :=
  (exit_price - entry_price) * amount.

(** ** exchange.py: the paper venue *)

Module Exchange.

(** What [execute_order] reads of an [ExchangeInterface]: the flag
    [config['exchange']['paper_trading']], and the clock that
    [datetime.now()] reads, as the number of readings made so far. *)
Record ExchangeInterface : Type := mkExchangeInterface {
  paper_trading : bool;
  clock : nat
}.

(** The string a signal carries in [signal.side]. *)
Definition side_name (s : Side) : string :=
  match s with
  | buy => "buy"
  | sell => "sell"
  end.

Section Venue.

(** [str(datetime.now().timestamp())] at the n-th reading of the clock. *)
Variable stamp : nat -> string.

(** [self.exchange.create_order(...)] of the live client. *)
Variable create_order : TradeSignal -> Py.result (gmap string PyVal).

(** [ExchangeInterface._simulate_order].  The entries of the dictionary
    are evaluated in order: the clock is read for the id, and the price is
    [signal.price or self.get_price(signal.symbol)], where a price of
    [None] or zero falls through to [get_price], a method that
    [ExchangeInterface] does not define. *)
Definition _simulate_order (signal : TradeSignal) (self : ExchangeInterface)
  : Py.result (gmap string PyVal) * ExchangeInterface :=
  let id := ("sim-" ++ stamp (clock self))%string in
  let self' := {| paper_trading := paper_trading self; clock := S (clock self) |} in
  let truthy_price :=
    match price signal with
    | Some p => if Qeq_bool p 0 then None else Some p
    | None => None
    end in
  match truthy_price with
  | Some p =>
      (Py.Ok (<["id" := VStr id]>
              (<["symbol" := VStr (symbol signal)]>
              (<["side" := VStr (side_name (side signal))]>
              (<["amount" := VNum (amount signal)]>
              (<["price" := VNum p]>
              (<["status" := VStr "filled"]>
              (<["pnl" := VNum 0]> ∅)))))))%string, self')
  | None => (Py.Err (Py.AttributeError "get_price"), self')
  end.

(** [ExchangeInterface.execute_order] *)
Definition execute_order (signal : TradeSignal) (self : ExchangeInterface)
  : Py.result (gmap string PyVal) * ExchangeInterface :=
  if paper_trading self then _simulate_order signal self
  else (create_order signal, self).

End Venue.

End Exchange.

(** ** bot.py: the analysis pass *)

Module Markets.

Section Pass.

Variable BBANDS : list Q -> Z -> Q -> Q ->
  Py.result (list (option Q) * list (option Q) * list (option Q)).
Variable RSI : list Q -> Z -> Py.result (list (option Q)).
Variable SMA : list Q -> Z -> Py.result (list (option Q)).

(** The market data provider behind [self.exchange.get_ohlcv(symbol, '1h',
    limit=100)]: a state of its own, and a frame or an exception. *)
Variable Provider : Type.
Variable get_ohlcv : string -> Provider -> Py.result DataFrame * Provider.

(** The inner loop: [signals.extend(strategy.analyze(symbol, data))] for
    each strategy in turn, on the one frame fetched for the symbol. *)
Fixpoint analyze_symbol (strategies : list Strategy) (sym : string)
    (data : DataFrame) (signals : list TradeSignal)
  : Py.result (list TradeSignal) :=
  match strategies with
  | [] => Py.Ok signals
  | strategy :: rest =>
      do found <- analyze BBANDS RSI SMA strategy sym data;
      analyze_symbol rest sym data (signals ++ found)
  end.

(** The outer loop over the watchlist. *)
Fixpoint analyze_watchlist (strategies : list Strategy) (watchlist : list string)
    (signals : list TradeSignal) (provider : Provider)
  : Py.result (list TradeSignal) * Provider :=
  match watchlist with
  | [] => (Py.Ok signals, provider)
  | sym :: rest =>
      match get_ohlcv sym provider with
      | (Py.Err e, provider') => (Py.Err e, provider')
      | (Py.Ok data, provider') =>
          match analyze_symbol strategies sym data signals with
          | Py.Err e => (Py.Err e, provider')
          | Py.Ok signals' => analyze_watchlist strategies rest signals' provider'
          end
      end
  end.

(** [TradingBot._analyze_markets]; [watchlist] is the entry of that name
    in the configuration, if there is one. *)
Definition _analyze_markets (strategies : list Strategy)
    (watchlist : option (list string)) (provider : Provider)
  : Py.result (list TradeSignal) * Provider :=
  analyze_watchlist strategies (get watchlist ["BTC/USDT"%string]) [] provider.

End Pass.

End Markets.

(** ** Counting the calls in a log *)

Definition is_executed (e : Bot.event) : bool :=
  match e with Bot.Executed _ => true | _ => false end.
Definition is_recorded (e : Bot.event) : bool :=
  match e with Bot.Recorded _ => true | _ => false end.
Definition is_pnl_updated (e : Bot.event) : bool :=
  match e with Bot.PnlUpdated _ => true | _ => false end.

Definition count (f : Bot.event -> bool) (l : list Bot.event) : nat :=
  length (List.filter f l).

(** What a batch of at most [n] signals may add to the log and to the
    history of writes. *)
Definition grows_by {Venue : Type} (n : nat) (bot bot' : Bot.TradingBot Venue)
  : Prop :=
  exists (ext : list Bot.event) (written : list (gmap string PyVal)),
    Bot.log bot' = Bot.log bot ++ ext
    /\ Bot.dashboard bot' = Bot.dashboard bot ++ written
    /\ (count is_pnl_updated ext <= length written)%nat
    /\ (length written <= count is_recorded ext)%nat
    /\ (count is_recorded ext <= count is_executed ext)%nat
    /\ (count is_executed ext <= n)%nat
    /\ Bot.strategies bot' = Bot.strategies bot
    /\ Risk.max_daily_loss (Bot.risk bot') = Risk.max_daily_loss (Bot.risk bot).

(** What the signals that come back from [analyze] have in common. *)
Definition signal_shape (sym : string) (s : TradeSignal) : Prop :=
  symbol s = sym /\ type_ s = limit /\ (exists p, price s = Some p)
  /\ 0 < confidence s /\ confidence s <= 1.

(** What each strategy returns for one symbol, in the order of the
    strategies, up to the first one that raises. *)
Fixpoint analyze_each
    (BBANDS : list Q -> Z -> Q -> Q ->
       Py.result (list (option Q) * list (option Q) * list (option Q)))
    (RSI SMA : list Q -> Z -> Py.result (list (option Q)))
    (strategies : list Strategy) (sym : string) (data : DataFrame)
  : Py.result (list (list TradeSignal)) :=
  match strategies with
  | [] => Py.Ok []
  | strategy :: rest =>
      do found <- analyze BBANDS RSI SMA strategy sym data;
      do others <- analyze_each BBANDS RSI SMA rest sym data;
      Py.Ok (found :: others)
  end.


(** A candle is well formed when its close lies between its low and its
    high. *)
Definition well_formed (c : Candle) : Prop :=
  low c <= close c /\ close c <= high c.

(** ** More fixtures *)

Module Fixtures.

(** A venue whose call raises. *)
Definition failing_venue (signal : TradeSignal) (v : unit)
  : Py.result (gmap string PyVal) * unit :=
  (Py.Err Py.IndexError, v).

(** An order with an id and nothing else, and the venue that returns it. *)
Definition bare_order : gmap string PyVal := {[ "id"%string := VStr "o-2" ]}.

Definition bare_venue (signal : TradeSignal) (v : unit)
  : Py.result (gmap string PyVal) * unit :=
  (Py.Ok bare_order, v).

(** A clock that always reads the same time, and a live client that
    refuses every order. *)
Definition stamp (n : nat) : string := "1700000000.0".
Definition create_order (signal : TradeSignal) : Py.result (gmap string PyVal) :=
  Py.Err (Py.Exception "NetworkError").

(** A bot on the paper venue, with a daily loss limit of 100. *)
Definition paper_bot : Bot.TradingBot Exchange.ExchangeInterface :=
  Bot.mkTradingBot [] (Risk.init 100) (Exchange.mkExchangeInterface true 0) [] [].

(** A market order: no price. *)
Definition market_signal : TradeSignal :=
  mkTradeSignal "BTC/USDT" buy 1 None market 0.8.

(** A trade closed at 100 that was entered at a price of zero. *)
Definition free_trade : gmap string PyVal :=
  {[ "id" := VStr "o-3"; "symbol" := VStr "BTC/USDT"; "side" := VStr "buy";
     "entry_price" := VNum 0; "amount" := VNum 1;
     "exit_price" := VNum 100 ]}%string.

(** Providers: one that returns forty flat candles for every symbol, one
    that returns three candles, one that raises. *)
Definition flat_feed (sym : string) (p : unit) : Py.result DataFrame * unit :=
  (Py.Ok Samples.flat_40, p).
Definition short_feed (sym : string) (p : unit) : Py.result DataFrame * unit :=
  (Py.Ok Samples.three_candles, p).
Definition failing_feed (sym : string) (p : unit) : Py.result DataFrame * unit :=
  (Py.Err (Py.Exception "NetworkError"), p).

End Fixtures.

(** Case analysis on the steps of a computation that is known to return. *)
Ltac returns_step :=
  match goal with
  | H : Py.Err _ = Py.Ok _ |- _ => discriminate H
  | H : Py.Ok _ = Py.Ok _ |- _ => injection H as H; subst
  | H : Py.bind ?r _ = Py.Ok _ |- _ =>
      let E := fresh "E" in
      destruct r eqn:E; cbn [Py.bind] in H; [|discriminate H]
  | H : (let '(_, _) := ?p in _) = Py.Ok _ |- _ => destruct p
  | H : (if ?b then _ else _) = Py.Ok _ |- _ =>
      let E := fresh "E" in destruct b eqn:E
  | H : match ?x with _ => _ end = Py.Ok _ |- _ =>
      let E := fresh "E" in destruct x eqn:E
  end.

(** * Properties *)

(** ** Comparisons *)

Lemma ltb_lt (a b : Q) : Py.ltb a b = true <-> a < b.
Proof.
  unfold Py.ltb. rewrite negb_true_iff.
  split.
  - intros H. apply Qnot_le_lt. intros Hle.
    apply Qle_bool_iff in Hle. congruence.
  - intros H. destruct (Qle_bool b a) eqn:E; [|reflexivity].
    apply Qle_bool_iff in E. exfalso. apply (Qlt_not_le _ _ H E).
Qed.

Lemma ltb_ge (a b : Q) : Py.ltb a b = false <-> b <= a.
Proof.
  unfold Py.ltb. rewrite negb_false_iff. apply Qle_bool_iff.
Qed.

Lemma leb_le (a b : Q) : Py.leb a b = true <-> a <= b.
Proof. apply Qle_bool_iff. Qed.

(** ** The risk gate *)

Section RiskFacts.

Import Risk.

Lemma approve_trade_state (s : TradeSignal) (self : RiskManager) :
  snd (approve_trade s self) = self.
Proof. unfold approve_trade. destruct (Py.ltb _ _); reflexivity. Qed.

Lemma approve_trade_halted (s : TradeSignal) (self : RiskManager) :
  halted self -> fst (approve_trade s self) = false.
Proof.
  unfold halted, approve_trade. intros H.
  apply ltb_lt in H. rewrite H. reflexivity.
Qed.

Lemma approve_trade_enabled (s : TradeSignal) (self : RiskManager) :
  enabled self -> fst (approve_trade s self) = true.
Proof.
  unfold enabled, halted, approve_trade. intros H.
  destruct (Py.ltb _ _) eqn:E; [|reflexivity].
  apply ltb_lt in E. contradiction.
Qed.

Lemma run_approvals (signals : list TradeSignal) (self : RiskManager) :
  run (map CallApprove signals) self
  = (map (fun s => fst (approve_trade s self)) signals, self).
Proof.
  induction signals as [|s signals IH]; [reflexivity|].
  cbn [map run exec].
  destruct (approve_trade s self) as [b self'] eqn:E.
  assert (self' = self) as -> by (rewrite <- (approve_trade_state s self), E; reflexivity).
  rewrite IH. reflexivity.
Qed.

Lemma fresh_breach (m : Q) :
  halted (snd (update_pnl (- m - 1) (init m))).
Proof.
  unfold halted; cbn. rewrite Qplus_0_l.
  rewrite <- (Qplus_0_r (- m)) at 2.
  unfold Qminus. apply Qplus_lt_r. reflexivity.
Qed.

(** C2.  Once [update_pnl(-max_daily_loss - 1)] has brought the running
    total below [-max_daily_loss], every following [approve_trade]
    answers false, whatever the signals are, and the gate stays as it
    is; after [reset_daily_pnl] the answer is true again (the limit being
    non-negative, as the data model has it). *)
Theorem risk_gate_halts_until_reset
    (self : RiskManager) (signals : list TradeSignal) (s : TradeSignal) :
  0 <= max_daily_loss self ->
  let breached := snd (update_pnl (- max_daily_loss self - 1) self) in
  halted breached ->
  let later := run (map CallApprove signals) breached in
  fst later = map (fun _ => false) signals
  /\ snd later = breached
  /\ fst (approve_trade s (snd (reset_daily_pnl (snd later)))) = true.
Proof.
  intros Hmax breached Hhalt later. unfold later.
  rewrite run_approvals. cbn [fst snd]. repeat split.
  - apply map_ext. intros s'. apply approve_trade_halted, Hhalt.
  - apply approve_trade_enabled. unfold enabled, halted; cbn.
    intros H. apply (Qlt_not_le _ _ H).
    apply (Qopp_le_compat 0) in Hmax. exact Hmax.
Qed.

Lemma risk_gate_halts_until_reset_witness :
  let self := init 100 in
  let signals := [Samples.a_signal 0.9; Samples.a_signal 0.1] in
  let breached := snd (update_pnl (- max_daily_loss self - 1) self) in
  let later := run (map CallApprove signals) breached in
  0 <= max_daily_loss self
  /\ halted breached
  /\ fst later = [false; false]
  /\ snd later = breached
  /\ fst (approve_trade (Samples.a_signal 0.5)
            (snd (reset_daily_pnl (snd later)))) = true.
Proof.
  intros self signals breached later.
  split; [cbn; discriminate|].
  split; [apply fresh_breach|].
  apply (risk_gate_halts_until_reset self signals (Samples.a_signal 0.5)).
  - cbn; discriminate.
  - apply fresh_breach.
Defined.

End RiskFacts.

Section RiskFrame.

Import Risk.

(** C9, as stated, fails: [reset_daily_pnl] writes [daily_pnl] too. *)
Lemma reset_daily_pnl_mutates : ~ only_update_pnl_mutates.
Proof.
  intros H.
  destruct (H CallReset (mkRiskManager 5 100)) as [amount Heq].
  - cbn. discriminate.
  - discriminate Heq.
Qed.

(** C9, amended.  [approve_trade] leaves the whole gate as it was;
    [update_pnl] adds exactly its argument to [daily_pnl] and
    [reset_daily_pnl] sets it to zero, neither touching the limit; and an
    operation that changes the gate is one of these two. *)
Theorem approve_trade_reads_update_and_reset_write :
  (forall (s : TradeSignal) (self : RiskManager),
      snd (approve_trade s self) = self)
  /\ (forall (amount : Q) (self : RiskManager),
      daily_pnl (snd (update_pnl amount self)) = daily_pnl self + amount
      /\ max_daily_loss (snd (update_pnl amount self)) = max_daily_loss self)
  /\ (forall self : RiskManager,
      daily_pnl (snd (reset_daily_pnl self)) = 0
      /\ max_daily_loss (snd (reset_daily_pnl self)) = max_daily_loss self)
  /\ (forall (c : call) (self : RiskManager),
      snd (exec c self) <> self ->
      (exists amount, c = CallUpdate amount) \/ c = CallReset).
Proof.
  split; [exact approve_trade_state|].
  split; [intros; split; reflexivity|].
  split; [intros; split; reflexivity|].
  intros [s|amount|] self Hne.
  - exfalso. apply Hne. cbn.
    pose proof (approve_trade_state s self) as H.
    destruct (approve_trade s self); exact H.
  - left. exists amount. reflexivity.
  - right. reflexivity.
Qed.

Lemma approve_trade_reads_update_and_reset_write_witness :
  let self := mkRiskManager 5 100 in
  snd (exec CallReset self) <> self
  /\ ((exists amount, CallReset = CallUpdate amount) \/ CallReset = CallReset)
  /\ daily_pnl (snd (update_pnl (-7) self)) = 5 + -7.
Proof.
  intros self.
  destruct approve_trade_reads_update_and_reset_write as (_ & Hupd & _ & Honly).
  assert (Hne : snd (exec CallReset self) <> self) by (cbn; discriminate).
  split; [exact Hne|].
  split; [exact (Honly CallReset self Hne) | exact (proj1 (Hupd (-7) self))].
Defined.

(** C10.  The answer of [approve_trade] is the same for any two signals,
    and while the gate is enabled it is true for every signal. *)
Theorem approve_trade_ignores_signal
    (self : RiskManager) (s1 s2 : TradeSignal) :
  fst (approve_trade s1 self) = fst (approve_trade s2 self)
  /\ (enabled self -> fst (approve_trade s1 self) = true).
Proof.
  split.
  - unfold approve_trade. destruct (Py.ltb _ _); reflexivity.
  - apply approve_trade_enabled.
Qed.

Lemma approve_trade_ignores_signal_witness :
  let self := mkRiskManager (-100) 100 in
  enabled self
  /\ fst (approve_trade (Samples.a_signal 0.1) self)
     = fst (approve_trade (mkTradeSignal "ETH/USDT" sell 1000000 None market 1) self)
  /\ fst (approve_trade (Samples.a_signal 0.1) self) = true.
Proof.
  intros self.
  assert (He : enabled self) by (unfold enabled, halted; cbn; discriminate).
  destruct (approve_trade_ignores_signal self (Samples.a_signal 0.1)
              (mkTradeSignal "ETH/USDT" sell 1000000 None market 1)) as [H1 H2].
  split; [exact He|]. split; [exact H1 | exact (H2 He)].
Defined.

End RiskFrame.

(** ** The strategies *)

Lemma no_position_size_method (self : Strategy) (p : Q) :
  cls self = MomentumStrategy \/ cls self = BreakoutStrategy ->
  call_calculate_position_size self p
  = Py.Err (Py.AttributeError "_calculate_position_size").
Proof.
  unfold call_calculate_position_size.
  intros [-> | ->]; reflexivity.
Qed.

Lemma mean_reversion_position_size (self : Strategy) (p : Q) :
  cls self = MeanReversionStrategy ->
  call_calculate_position_size self p = Py.Ok (_calculate_position_size self p).
Proof.
  unfold call_calculate_position_size. intros ->. reflexivity.
Qed.

Lemma filter_validated (self : Strategy) (signals : list TradeSignal) :
  Forall (fun s => min_confidence self <= confidence s)
         (List.filter (_validate_signal self) signals).
Proof.
  apply List.Forall_forall. intros s Hin.
  apply filter_In in Hin. destruct Hin as [_ Hv].
  apply leb_le in Hv. exact Hv.
Qed.

Section StrategyFacts.

Variable BBANDS : list Q -> Z -> Q -> Q ->
  Py.result (list (option Q) * list (option Q) * list (option Q)).
Variable RSI : list Q -> Z -> Py.result (list (option Q)).
Variable SMA : list Q -> Z -> Py.result (list (option Q)).

Lemma momentum_returns_nothing (self : Strategy) (sym : string)
    (data : DataFrame) (signals : list TradeSignal) :
  cls self = MomentumStrategy ->
  analyze_momentum SMA self sym data = Py.Ok signals ->
  signals = [].
Proof.
  intros Hc H. unfold analyze_momentum in H.
  repeat first
    [ rewrite (no_position_size_method self _ (or_introl Hc)) in H;
      cbn [Py.bind] in H
    | returns_step ];
    reflexivity.
Qed.

Lemma breakout_returns_nothing (self : Strategy) (sym : string)
    (data : DataFrame) (signals : list TradeSignal) :
  cls self = BreakoutStrategy ->
  analyze_breakout self sym data = Py.Ok signals ->
  signals = [].
Proof.
  intros Hc H. unfold analyze_breakout in H.
  repeat first
    [ rewrite (no_position_size_method self _ (or_intror Hc)) in H;
      cbn [Py.bind] in H
    | returns_step ];
    reflexivity.
Qed.

End StrategyFacts.

Section AnalyzeFacts.

Variable BBANDS : list Q -> Z -> Q -> Q ->
  Py.result (list (option Q) * list (option Q) * list (option Q)).
Variable RSI : list Q -> Z -> Py.result (list (option Q)).
Variable SMA : list Q -> Z -> Py.result (list (option Q)).

Lemma guard_window_is_longest (self : Strategy) :
  cls self <> MomentumStrategy \/ (fast_ma self <= slow_ma self)%Z ->
  guard_window self = longest_window self.
Proof.
  unfold guard_window, longest_window.
  destruct (cls self); intros [H | H]; try reflexivity; try congruence.
  symmetry. apply Z.max_r. exact H.
Qed.

(** C3, amended.  A frame with fewer rows than twice the window its
    strategy tests (the larger of [bb_window] and [rsi_window],
    [slow_ma], [resistance_window]) gives the empty list, without an
    exception; that window is the longest configured one except for a
    momentum strategy whose [fast_ma] exceeds its [slow_ma]. *)
Theorem short_series_returns_empty
    (self : Strategy) (sym : string) (data : DataFrame) :
  cls self <> StrategyBase ->
  (len data < 2 * guard_window self)%Z ->
  analyze BBANDS RSI SMA self sym data = Py.Ok []
  /\ (cls self <> MomentumStrategy \/ (fast_ma self <= slow_ma self)%Z ->
      guard_window self = longest_window self).
Proof.
  intros Hc Hlen.
  split; [|apply guard_window_is_longest].
  unfold analyze, guard_window in *.
  destruct (cls self); [congruence| | |].
  - unfold analyze_mean_reversion.
    replace (len data <? _)%Z with true; [reflexivity|].
    symmetry. apply Z.ltb_lt. lia.
  - unfold analyze_momentum.
    replace (len data <? _)%Z with true; [reflexivity|].
    symmetry. apply Z.ltb_lt. lia.
  - unfold analyze_breakout.
    replace (len data <? _)%Z with true; [reflexivity|].
    symmetry. apply Z.ltb_lt. lia.
Qed.

End AnalyzeFacts.

Section MeanReversionFacts.

Variable BBANDS : list Q -> Z -> Q -> Q ->
  Py.result (list (option Q) * list (option Q) * list (option Q)).
Variable RSI : list Q -> Z -> Py.result (list (option Q)).
Variable SMA : list Q -> Z -> Py.result (list (option Q)).

(** C5, amended.  On a frame long enough, with the bands and the
    oscillator computed and [r] the last oscillator value:
    - if the last close is at or under the last lower band and [r < 30],
      the signal built is a limit buy of [(account_size * risk_per_trade)
      / close] at [close * 1.002] with confidence [min(1, (30 - r) / 30)],
      whatever the upper band is, and [analyze] returns it when that
      confidence reaches [min_confidence] and nothing otherwise;
    - if the last close is at or over the last upper band and [r > 70]
      (which excludes the buy test), the same holds for the limit sell at
      [close * 0.998] with confidence [min(1, (r - 70) / 30)];
    - with [r = 20] the buy confidence is 1/3, so the buy is returned
      exactly when [min_confidence <= 1/3].
    The close is taken positive, so that the quotient is a number. *)
Theorem mean_reversion_buy_then_floor
    (self : Strategy) (sym : string) (data : DataFrame)
    (upper middle lower rsi : list (option Q)) (latest : Candle) (r : Q) :
  cls self = MeanReversionStrategy ->
  (Z.max (bb_window self) (rsi_window self) * 2 <= len data)%Z ->
  BBANDS (column close data) (bb_window self) (bb_std self) (bb_std self)
    = Py.Ok (upper, middle, lower) ->
  RSI (column close data) (rsi_window self) = Py.Ok rsi ->
  Py.iloc_neg (rows data) 1 = Py.Ok latest ->
  Pandas.last_value rsi = Some r ->
  0 < close latest ->
  let size := (get (cfg_account_size (config self)) 10000
               * get (cfg_risk_per_trade (config self)) (1 # 100))
              / close latest in
  let buy_signal :=
    mkTradeSignal sym buy size (Some (close latest * 1.002)) limit
                  (Py.min 1 ((30 - r) / 30)) in
  let sell_signal :=
    mkTradeSignal sym sell size (Some (close latest * 0.998)) limit
                  (Py.min 1 ((r - 70) / 30)) in
  let result := analyze BBANDS RSI SMA self sym data in
  (forall l, Pandas.last_value lower = Some l -> close latest <= l -> r < 30 ->
     result = Py.Ok (if Py.leb (min_confidence self) (confidence buy_signal)
                     then [buy_signal] else []))
  /\ (forall u, Pandas.last_value upper = Some u -> u <= close latest -> 70 < r ->
     result = Py.Ok (if Py.leb (min_confidence self) (confidence sell_signal)
                     then [sell_signal] else []))
  /\ (forall l, Pandas.last_value lower = Some l -> close latest <= l -> r = 20 ->
     confidence buy_signal == 1 # 3
     /\ (min_confidence self <= 1 # 3 -> result = Py.Ok [buy_signal])
     /\ (1 # 3 < min_confidence self -> result = Py.Ok [])).
Proof.
  intros Hc Hlen Hbb Hrsi Hlatest Hr Hpos size buy_signal sell_signal result.
  assert (Hbuy : forall l, Pandas.last_value lower = Some l ->
            close latest <= l -> r < 30 ->
            result = Py.Ok (if Py.leb (min_confidence self) (confidence buy_signal)
                            then [buy_signal] else [])).
  { intros l Hl Hle Hlt.
    unfold result, analyze. rewrite Hc. unfold analyze_mean_reversion.
    apply Z.ltb_ge in Hlen. rewrite Hlen.
    unfold mean_reversion_signals. rewrite Hbb. cbn [Py.bind].
    rewrite Hrsi. cbn [Py.bind]. rewrite Hlatest. cbn [Py.bind].
    rewrite Hr, Hl. cbn [Py.nan_leb].
    apply leb_le in Hle. rewrite Hle.
    apply ltb_lt in Hlt. rewrite Hlt. cbn [andb].
    rewrite (mean_reversion_position_size self _ Hc).
    cbn [Py.bind List.filter]. reflexivity. }
  split; [exact Hbuy|]. split.
  - intros u Hu Hle Hgt.
    unfold result, analyze. rewrite Hc. unfold analyze_mean_reversion.
    apply Z.ltb_ge in Hlen. rewrite Hlen.
    unfold mean_reversion_signals. rewrite Hbb. cbn [Py.bind].
    rewrite Hrsi. cbn [Py.bind]. rewrite Hlatest. cbn [Py.bind].
    rewrite Hr, Hu.
    assert (Hnot : Py.ltb r 30 = false).
    { apply ltb_ge. apply Qlt_le_weak. eapply Qlt_trans; [|exact Hgt]. reflexivity. }
    rewrite Hnot, andb_false_r. cbn [Py.nan_leb].
    apply leb_le in Hle. rewrite Hle.
    apply ltb_lt in Hgt. rewrite Hgt. cbn [andb].
    rewrite (mean_reversion_position_size self _ Hc).
    cbn [Py.bind List.filter]. reflexivity.
  - intros l Hl Hle H20.
    assert (Hlt : r < 30) by (rewrite H20; reflexivity).
    pose proof (Hbuy l Hl Hle Hlt) as Hres.
    assert (Hconf : confidence buy_signal = 10 # 30)
      by (unfold buy_signal; rewrite H20; reflexivity).
    rewrite Hconf in Hres. rewrite Hconf.
    split; [reflexivity|]. split.
    + intros Hmin. rewrite Hres.
      replace (Py.leb (min_confidence self) (10 # 30)) with true; [reflexivity|].
      symmetry. apply leb_le. eapply Qle_trans; [exact Hmin|]. discriminate.
    + intros Hmin. rewrite Hres.
      replace (Py.leb (min_confidence self) (10 # 30)) with false; [reflexivity|].
      symmetry. destruct (Py.leb (min_confidence self) (10 # 30)) eqn:E; [|reflexivity].
      apply leb_le in E. exfalso. apply (Qlt_not_le _ _ Hmin).
      eapply Qle_trans; [exact E|]. discriminate.
Qed.

End MeanReversionFacts.

(** ** The strategies on concrete frames *)

Section Runs.

Import Samples Indicators.

(** C3, as stated, fails: a momentum strategy with [fast_ma = 5] and
    [slow_ma = 2] runs on five candles, fewer than twice its longest
    window, finds a crossing at the last one and raises. *)
Lemma momentum_short_series_raises : ~ short_series_give_nothing.
Proof.
  intros H.
  specialize (H bands (fixed_rsi 50) sma momentum_5_2 "BTC/USDT"%string five_candles).
  assert (E : analyze bands (fixed_rsi 50) sma momentum_5_2 "BTC/USDT" five_candles
              = Py.Err (Py.AttributeError "_calculate_position_size"))
    by (vm_compute; reflexivity).
  rewrite E in H.
  discriminate H; [discriminate | reflexivity].
Qed.

Lemma short_series_returns_empty_witness :
  cls momentum_5_2 <> StrategyBase
  /\ (len three_candles < 2 * guard_window momentum_5_2)%Z
  /\ analyze bands (fixed_rsi 50) sma momentum_5_2 "BTC/USDT" three_candles
     = Py.Ok [].
Proof.
  assert (Hc : cls momentum_5_2 <> StrategyBase) by discriminate.
  assert (Hl : (len three_candles < 2 * guard_window momentum_5_2)%Z)
    by reflexivity.
  split; [exact Hc|]. split; [exact Hl|].
  exact (proj1 (short_series_returns_empty bands (fixed_rsi 50) sma
                  momentum_5_2 "BTC/USDT" three_candles Hc Hl)).
Defined.

(** C5, as stated, fails: with the default floor of 0.7, a last close
    equal to the lower band and an oscillator of 20 give no signal. *)
Lemma mean_reversion_rsi_20_gives_nothing :
  Py.iloc_neg (rows flat_40) 1 = Py.Ok (flat 39 100 1)
  /\ (do b <- bands (column close flat_40) 20%Z 2 2;
      Py.Ok (Pandas.last_value (snd b))) = Py.Ok (Some (close (flat 39 100 1)))
  /\ (do r <- fixed_rsi 20 (column close flat_40) 14%Z;
      Py.Ok (Pandas.last_value r)) = Py.Ok (Some 20)
  /\ analyze bands (fixed_rsi 20) sma mean_reversion_default "BTC/USDT" flat_40
     = Py.Ok [].
Proof. repeat split; vm_compute; reflexivity. Qed.

Lemma mean_reversion_buy_then_floor_witness :
  let result :=
    analyze bands (fixed_rsi 20) sma mean_reversion_default "BTC/USDT" flat_40 in
  let buy_signal :=
    mkTradeSignal "BTC/USDT" buy (10000 * (1 # 100) / 100)
                  (Some (100 * 1.002)) limit (Py.min 1 ((30 - 20) / 30)) in
  confidence buy_signal == 1 # 3
  /\ (min_confidence mean_reversion_default <= 1 # 3 -> result = Py.Ok [buy_signal])
  /\ (1 # 3 < min_confidence mean_reversion_default -> result = Py.Ok []).
Proof.
  intros result buy_signal.
  refine (proj2 (proj2 (mean_reversion_buy_then_floor
            bands (fixed_rsi 20) sma mean_reversion_default "BTC/USDT" flat_40
            (map (fun _ => Some 110) (column close flat_40))
            (map (fun _ => Some 105) (column close flat_40))
            (map (fun _ => Some 100) (column close flat_40))
            (map (fun _ => Some 20) (column close flat_40))
            (flat 39 100 1) 20
            eq_refl _ eq_refl eq_refl eq_refl eq_refl eq_refl))
            100 eq_refl _ eq_refl).
  - vm_compute. discriminate.
  - vm_compute. discriminate.
Defined.

End Runs.

Section BrokenRuns.

Import Samples Indicators.

(** Without a crossing at the last candle the momentum strategy returns
    the empty list. *)
Lemma momentum_no_flip_no_signal SMA (self : Strategy) (sym : string)
    (data : DataFrame) (fast slow : list (option Q)) (latest : Candle) :
  (slow_ma self * 2 <= len data)%Z ->
  SMA (column close data) (fast_ma self) = Py.Ok fast ->
  SMA (column close data) (slow_ma self) = Py.Ok slow ->
  Py.iloc_neg (rows data) 1 = Py.Ok latest ->
  Pandas.last_value (Pandas.diff (Pandas.where_gt fast slow)) = Some 0%Z ->
  analyze_momentum SMA self sym data = Py.Ok [].
Proof.
  intros Hlen Hf Hs Hl Hx. unfold analyze_momentum.
  apply Z.ltb_ge in Hlen. rewrite Hlen, Hf. cbn [Py.bind].
  rewrite Hs. cbn [Py.bind]. rewrite Hl. cbn [Py.bind].
  rewrite Hx. reflexivity.
Qed.

(** C7.  On 42 candles whose fast average is under the slow one at the
    second-to-last candle and over it at the last, the default momentum
    strategy does not return a buy signal: building the signal asks for
    [self._calculate_position_size], which [MomentumStrategy] does not
    have, and [analyze] raises [AttributeError].  On the same closes
    without the crossing it returns the empty list. *)
Theorem momentum_crossing_raises :
  (exists fast slow,
      sma (column close falling_then_spike) 9 = Py.Ok fast
      /\ sma (column close falling_then_spike) 21 = Py.Ok slow
      /\ Py.iloc_neg (Pandas.where_gt fast slow) 2 = Py.Ok (-1)%Z
      /\ Py.iloc_neg (Pandas.where_gt fast slow) 1 = Py.Ok 1%Z)
  /\ (forall BBANDS RSI,
      analyze BBANDS RSI sma momentum_default "BTC/USDT" falling_then_spike
      = Py.Err (Py.AttributeError "_calculate_position_size"))
  /\ (forall BBANDS RSI,
      analyze BBANDS RSI sma momentum_default "BTC/USDT" falling = Py.Ok []).
Proof.
  split; [| split; intros; vm_compute; reflexivity].
  eexists. eexists.
  split; [vm_compute; reflexivity|].
  split; [vm_compute; reflexivity|].
  split; vm_compute; reflexivity.
Qed.

(** The same crossing under a floor of 0.95: nothing is returned, the
    call raises before the signal of confidence 0.8 exists. *)
Lemma momentum_floor_95_crossing_raises BBANDS RSI :
  analyze BBANDS RSI sma momentum_floor_95 "BTC/USDT" falling_then_spike
  = Py.Err (Py.AttributeError "_calculate_position_size").
Proof. vm_compute. reflexivity. Qed.


(** C6.  Thirty candles: 28 flat at 100, then closes of 110 and 120 on
    rising volume.  Each of the last two closes is above the rolling
    maximum of the highs over the 14 candles ending at the candle before
    it (100 and 110), and the last volume is above the mean volume; yet
    no buy signal comes out.  On the frame as [get_ohlcv] builds it
    [resistance[-2]] is a label lookup and raises [KeyError]; on a frame
    with another index the confirmation compares the last close with the
    maximum of a window that contains its own high, and fails.  Where
    that confirmation does pass (closes above their own highs) the
    missing [_calculate_position_size] raises [AttributeError]. *)
Theorem breakout_confirmed_gives_no_signal :
  (exists resistance,
      Pandas.rolling_max 14 (column high (two_bar_breakout RangeIndex))
      = Py.Ok resistance
      /\ nth_error resistance 27 = Some (Some 100)
      /\ nth_error resistance 28 = Some (Some 110)
      /\ nth_error resistance 29 = Some (Some 120)
      /\ nth_error (column close (two_bar_breakout RangeIndex)) 28 = Some 110
      /\ nth_error (column close (two_bar_breakout RangeIndex)) 29 = Some 120
      /\ Py.nan_ltb (Pandas.mean (column volume (two_bar_breakout RangeIndex)))
                    (Some 10) = true)
  /\ (forall BBANDS RSI SMA,
      analyze BBANDS RSI SMA breakout_default "BTC/USDT" (two_bar_breakout RangeIndex)
      = Py.Err (Py.KeyError (-2)))
  /\ (forall BBANDS RSI SMA,
      analyze BBANDS RSI SMA breakout_default "BTC/USDT" (two_bar_breakout LabelIndex)
      = Py.Ok [])
  /\ (forall BBANDS RSI SMA,
      analyze BBANDS RSI SMA breakout_default "BTC/USDT" closes_over_highs
      = Py.Err (Py.AttributeError "_calculate_position_size")).
Proof.
  split; [| repeat split; intros; vm_compute; reflexivity].
  eexists. split; [vm_compute; reflexivity|].
  repeat split; vm_compute; reflexivity.
Qed.

End BrokenRuns.

(** ** The factory and the loop *)

Section BotFacts.

Import Bot.

Lemma create_unknown (config : Config) (kind : string) :
  cfg_type config = Some kind ->
  ~ In kind StrategyFactory.known_kinds ->
  StrategyFactory.create config
  = Py.Err (Py.ValueError ("Unknown strategy type: " ++ kind)).
Proof.
  intros Hk Hnot. unfold StrategyFactory.create. rewrite Hk. cbn [get].
  assert (H1 : String.eqb kind "mean_reversion" = false).
  { apply String.eqb_neq. intros ->. apply Hnot. cbn. auto. }
  assert (H2 : String.eqb kind "momentum" = false).
  { apply String.eqb_neq. intros ->. apply Hnot. cbn. auto. }
  assert (H3 : String.eqb kind "breakout" = false).
  { apply String.eqb_neq. intros ->. apply Hnot. cbn. auto. }
  rewrite H1, H2, H3. reflexivity.
Qed.

Lemma create_strategies_fails (before after : list Config) (config : Config) e :
  StrategyFactory.create config = Py.Err e ->
  exists e', create_strategies (before ++ config :: after) = Py.Err e'.
Proof.
  intros He. induction before as [|c before IH]; cbn [app create_strategies].
  - rewrite He. exists e. reflexivity.
  - destruct (StrategyFactory.create c) as [s|e0]; cbn [Py.bind].
    + destruct IH as [e' ->]. exists e'. reflexivity.
    + exists e0. reflexivity.
Qed.

(** C8.  A configuration that declares a kind other than
    [mean_reversion], [momentum] and [breakout] makes
    [StrategyFactory.create] raise [ValueError] naming the kind, not
    return a strategy; and with such a configuration anywhere in the
    list, the construction of the bot raises, so that [run] is not
    entered. *)
Theorem unknown_kind_is_refused (config : Config) (kind : string) :
  cfg_type config = Some kind ->
  ~ In kind StrategyFactory.known_kinds ->
  StrategyFactory.create config
  = Py.Err (Py.ValueError ("Unknown strategy type: " ++ kind))
  /\ forall before after,
      exists e, main (before ++ config :: after) = Aborted e.
Proof.
  intros Hk Hnot.
  pose proof (create_unknown config kind Hk Hnot) as Hc.
  split; [exact Hc|].
  intros before after.
  destruct (create_strategies_fails before after config _ Hc) as [e He].
  exists e. unfold main. rewrite He. reflexivity.
Qed.

Lemma unknown_kind_is_refused_witness :
  let config := mkConfig (Some "scalping"%string) None None None None
                         None None None None None None in
  StrategyFactory.create config
  = Py.Err (Py.ValueError "Unknown strategy type: scalping")
  /\ exists e, main ([empty_config] ++ config :: [empty_config]) = Aborted e.
Proof.
  intros config.
  assert (Hnot : ~ In "scalping"%string StrategyFactory.known_kinds).
  { cbn. intros [H | [H | [H | []]]]; discriminate H. }
  destruct (unknown_kind_is_refused config "scalping" eq_refl Hnot) as [H1 H2].
  split; [exact H1 | exact (H2 [empty_config] [empty_config])].
Defined.

End BotFacts.

Section LoopFacts.

Import Bot.


Variable Venue : Type.
Variable execute_order :
  TradeSignal -> Venue -> Py.result (gmap string PyVal) * Venue.


End LoopFacts.


(** * Further properties of the code *)

(** ** risk_manager.py *)

Section RiskMore.

Import Risk.

Lemma approve_trade_true (s : TradeSignal) (self : RiskManager) :
  - max_daily_loss self <= daily_pnl self -> fst (approve_trade s self) = true.
Proof.
  intros H. apply approve_trade_enabled. intros Hh.
  apply (Qlt_not_le _ _ Hh H).
Qed.

(** X1.  [approve_trade] answers true exactly when the running total is
    at or above minus the limit: a total equal to [-max_daily_loss] is
    still approved. *)
Theorem approve_trade_iff (s : TradeSignal) (self : RiskManager) :
  fst (approve_trade s self) = true <-> - max_daily_loss self <= daily_pnl self.
Proof.
  split; [|apply approve_trade_true].
  intros H. apply Qnot_lt_le. intros Hh.
  rewrite (approve_trade_halted s self Hh) in H. discriminate H.
Qed.

(** X2.  A halted gate opens again without a reset when a settlement
    brings the running total back to minus the limit or above. *)
Theorem profit_reopens_gate (s : TradeSignal) (self : RiskManager) (amount : Q) :
  halted self ->
  - max_daily_loss self - daily_pnl self <= amount ->
  fst (approve_trade s self) = false
  /\ fst (approve_trade s (snd (update_pnl amount self))) = true.
Proof.
  intros Hh Ha. split; [apply approve_trade_halted, Hh|].
  apply approve_trade_true. cbn.
  apply (Qplus_le_r _ _ (daily_pnl self)) in Ha.
  eapply Qle_trans; [|exact Ha].
  apply Qle_lteq. right. ring.
Qed.

Lemma profit_reopens_gate_witness :
  let self := mkRiskManager (-150) 100 in
  halted self
  /\ fst (approve_trade (Samples.a_signal 0.9) self) = false
  /\ fst (approve_trade (Samples.a_signal 0.9) (snd (update_pnl 50 self))) = true.
Proof.
  intros self.
  assert (Hh : halted self) by reflexivity.
  split; [exact Hh|].
  apply (profit_reopens_gate (Samples.a_signal 0.9) self 50 Hh).
  cbn. discriminate.
Defined.

(** X3.  After any sequence of [update_pnl] calls the running total is
    the total before plus the sum of the amounts, and no answer was
    produced. *)
Theorem updates_accumulate (amounts : list Q) (self : RiskManager) :
  fst (run (map CallUpdate amounts) self) = []
  /\ daily_pnl (snd (run (map CallUpdate amounts) self))
     == daily_pnl self + fold_right Qplus 0 amounts.
Proof.
  revert self. induction amounts as [|a amounts IH]; intros self.
  - split; [reflexivity|]. cbn. ring.
  - cbn [map run exec update_pnl fold_right].
    destruct (IH {| daily_pnl := daily_pnl self + a;
                    max_daily_loss := max_daily_loss self |}) as [H1 H2].
    destruct (run (map CallUpdate amounts) _) as [rs self'] eqn:E.
    cbn [fst snd] in *. split; [exact H1|].
    rewrite H2. cbn [daily_pnl]. ring.
Qed.

(** X4.  No sequence of calls changes the limit, and whatever came
    before, [reset_daily_pnl] leaves the gate as [__init__] made it. *)
Theorem limit_is_kept_and_reset_restarts (cs : list call) (self : RiskManager) :
  max_daily_loss (snd (run cs self)) = max_daily_loss self
  /\ snd (reset_daily_pnl (snd (run cs self))) = init (max_daily_loss self).
Proof.
  assert (H : forall cs self, max_daily_loss (snd (run cs self)) = max_daily_loss self).
  { clear. induction cs as [|c cs IH]; intros self; [reflexivity|].
    cbn [run].
    destruct (exec c self) as [r self1] eqn:E1.
    specialize (IH self1).
    destruct (run cs self1) as [rs self2]. cbn [snd] in *.
    rewrite IH.
    destruct c; cbn in E1.
    - pose proof (approve_trade_state signal self) as Hs.
      destruct (approve_trade signal self); cbn in Hs.
      injection E1 as _ <-. rewrite Hs. reflexivity.
    - injection E1 as _ <-. reflexivity.
    - injection E1 as _ <-. reflexivity. }
  split; [apply H|].
  unfold reset_daily_pnl, init. cbn [snd]. rewrite H. reflexivity.
Qed.

End RiskMore.

(** ** bot.py: the execution loop *)

Section LoopMore.

Import Bot.

Variable Venue : Type.
Variable execute_order :
  TradeSignal -> Venue -> Py.result (gmap string PyVal) * Venue.

Lemma execute_trade_refused (signal : TradeSignal) (bot : TradingBot Venue) :
  Risk.halted (risk bot) ->
  execute_trade execute_order signal bot = (None, bot).
Proof.
  intros Hh. unfold execute_trade.
  pose proof (approve_trade_state signal (risk bot)) as Hs.
  pose proof (approve_trade_halted signal (risk bot) Hh) as Hf.
  destruct (Risk.approve_trade signal (risk bot)) as [b r].
  cbn [fst snd] in *. subst. destruct bot; reflexivity.
Qed.

Lemma batch_refused (signals : list TradeSignal) (bot : TradingBot Venue) :
  Risk.halted (risk bot) ->
  _execute_trades execute_order signals bot = (None, bot).
Proof.
  intros Hh. induction signals as [|s signals IH]; [reflexivity|].
  cbn [_execute_trades]. rewrite (execute_trade_refused s bot Hh). exact IH.
Qed.

(** X5.  While the gate is halted, [_execute_trades] does nothing: the
    venue is not called for any signal of the batch, nothing is recorded
    and the bot is left as it was. *)
Theorem halted_batch_is_skipped (signals : list TradeSignal) (bot : TradingBot Venue) :
  Risk.halted (risk bot) ->
  _execute_trades execute_order signals bot = (None, bot)
  /\ count is_executed (log (snd (_execute_trades execute_order signals bot)))
     = count is_executed (log bot).
Proof.
  intros Hh. rewrite (batch_refused signals bot Hh). split; reflexivity.
Qed.

(** X6.  An exception of the venue or of the recorder ends the batch: it
    is what [_execute_trades] raises, the signals after it are not
    executed and the running total is not updated. *)
Theorem raising_collaborator_aborts_batch
    (signal : TradeSignal) (rest : list TradeSignal) (bot : TradingBot Venue)
    (e : Py.exn) :
  fst (Risk.approve_trade signal (risk bot)) = true ->
  (forall venue',
      execute_order signal (exchange bot) = (Py.Err e, venue') ->
      _execute_trades execute_order (signal :: rest) bot
      = (Some e, {| strategies := strategies bot; risk := risk bot;
                    exchange := venue'; dashboard := dashboard bot;
                    log := log bot ++ [Executed signal] |}))
  /\ (forall order venue',
      execute_order signal (exchange bot) = (Py.Ok order, venue') ->
      Dashboard.record_trade order (dashboard bot) = Py.Err e ->
      _execute_trades execute_order (signal :: rest) bot
      = (Some e, {| strategies := strategies bot; risk := risk bot;
                    exchange := venue'; dashboard := dashboard bot;
                    log := log bot ++ [Executed signal; Recorded order] |})).
Proof.
  intros Happ.
  pose proof (approve_trade_state signal (risk bot)) as Hst.
  split.
  - intros venue' Hex. cbn [_execute_trades]. unfold execute_trade.
    destruct (Risk.approve_trade signal (risk bot)) as [approved risk1].
    cbn [fst snd] in Happ, Hst. subst approved risk1.
    rewrite Hex. reflexivity.
  - intros order venue' Hex Hrec. cbn [_execute_trades]. unfold execute_trade.
    destruct (Risk.approve_trade signal (risk bot)) as [approved risk1].
    cbn [fst snd] in Happ, Hst. subst approved risk1.
    rewrite Hex. cbn [dashboard log risk exchange strategies].
    rewrite Hrec. rewrite <- !app_assoc. reflexivity.
Qed.



End LoopMore.

Lemma halted_batch_is_skipped_witness :
  let bot := Bot.mkTradingBot [] (Risk.mkRiskManager (-150) 100) tt [] [] in
  Bot._execute_trades Samples.rejecting_venue
    [Samples.a_signal 0.9; Samples.a_signal 0.8] bot = (None, bot).
Proof.
  intros bot.
  apply (halted_batch_is_skipped unit Samples.rejecting_venue).
  reflexivity.
Defined.

Lemma raising_collaborator_aborts_batch_witness :
  let signal := Samples.a_signal 0.9 in
  let bot := Samples.fresh_bot in
  Bot._execute_trades Fixtures.failing_venue [signal; signal] bot
  = (Some Py.IndexError,
     Bot.mkTradingBot [] (Risk.init 100) tt [] [Bot.Executed signal])
  /\ Bot._execute_trades Fixtures.bare_venue [signal; signal] bot
     = (Some (Py.ValueError "Missing required fields"),
        Bot.mkTradingBot [] (Risk.init 100) tt []
          [Bot.Executed signal; Bot.Recorded Fixtures.bare_order]).
Proof.
  intros signal bot. split.
  - apply (proj1 (raising_collaborator_aborts_batch unit Fixtures.failing_venue
                    signal [signal] bot Py.IndexError eq_refl) tt eq_refl).
  - apply (proj2 (raising_collaborator_aborts_batch unit Fixtures.bare_venue
                    signal [signal] bot (Py.ValueError "Missing required fields")
                    eq_refl) Fixtures.bare_order tt eq_refl eq_refl).
Defined.


Section LoopLog.

Import Bot.

Variable Venue : Type.
Variable execute_order :
  TradeSignal -> Venue -> Py.result (gmap string PyVal) * Venue.

Lemma record_trade_appends (trade : gmap string PyVal)
    (table table' : list (gmap string PyVal)) :
  Dashboard.record_trade trade table = Py.Ok table' -> table' = table ++ [trade].
Proof.
  unfold Dashboard.record_trade. intros H.
  repeat returns_step. reflexivity.
Qed.

Lemma count_app (f : event -> bool) (a b : list event) :
  count f (a ++ b) = (count f a + count f b)%nat.
Proof. unfold count. rewrite List.filter_app, length_app. reflexivity. Qed.

Lemma execute_trade_grows (signal : TradeSignal) (bot : TradingBot Venue) :
  grows_by 1 bot (snd (execute_trade execute_order signal bot)).
Proof.
  unfold execute_trade, grows_by.
  pose proof (approve_trade_state signal (risk bot)) as Hst.
  destruct (Risk.approve_trade signal (risk bot)) as [approved risk1].
  cbn [snd] in Hst. subst risk1.
  destruct approved.
  2:{ exists [], []. cbn. rewrite !app_nil_r. repeat split; lia. }
  destruct (execute_order signal (exchange bot)) as [[order|e] venue1].
  2:{ exists [Executed signal], []. cbn. rewrite app_nil_r. repeat split; lia. }
  cbn [dashboard log risk exchange strategies].
  destruct (Dashboard.record_trade order (dashboard bot)) as [table|e] eqn:Hrec.
  2:{ exists [Executed signal; Recorded order], []. cbn.
      rewrite app_nil_r, <- !app_assoc. repeat split; lia. }
  apply record_trade_appends in Hrec. subst table.
  destruct (get (order !! "pnl"%string) (VNum 0)) as [pnl| |];
    cbn [snd dashboard log risk exchange strategies Risk.update_pnl
         Risk.max_daily_loss].
  - exists [Executed signal; Recorded order; PnlUpdated pnl], [order].
    rewrite <- !app_assoc. cbn. repeat split; lia.
  - exists [Executed signal; Recorded order], [order].
    rewrite <- !app_assoc. cbn. repeat split; lia.
  - exists [Executed signal; Recorded order], [order].
    rewrite <- !app_assoc. cbn. repeat split; lia.
Qed.

Lemma grows_by_trans (n m : nat) (a b c : TradingBot Venue) :
  grows_by n a b -> grows_by m b c -> grows_by (n + m) a c.
Proof.
  intros (e1 & w1 & L1 & D1 & A1 & B1 & C1 & E1 & S1 & M1)
         (e2 & w2 & L2 & D2 & A2 & B2 & C2 & E2 & S2 & M2).
  exists (e1 ++ e2), (w1 ++ w2).
  rewrite L2, L1, D2, D1, S2, S1, M2, M1, <- !app_assoc.
  rewrite !count_app, !length_app.
  repeat split; lia.
Qed.

(** X8.  Whatever the venue and the recorder do and however the batch
    ends, [_execute_trades] only appends to the log of its calls; among
    the calls it adds there are at most as many [update_pnl] calls as
    [record_trade] calls, at most as many of those as venue calls, and at
    most one venue call per signal; the strategies and the loss limit are
    unchanged. *)
Theorem batch_calls_are_nested (signals : list TradeSignal) (bot : TradingBot Venue) :
  let bot' := snd (_execute_trades execute_order signals bot) in
  exists ext : list event,
    log bot' = log bot ++ ext
    /\ (count is_pnl_updated ext <= count is_recorded ext)%nat
    /\ (count is_recorded ext <= count is_executed ext)%nat
    /\ (count is_executed ext <= length signals)%nat
    /\ strategies bot' = strategies bot
    /\ Risk.max_daily_loss (risk bot') = Risk.max_daily_loss (risk bot).
Proof.
  cbn zeta.
  assert (H : grows_by (length signals) bot
                (snd (_execute_trades execute_order signals bot))).
  { revert bot. induction signals as [|s signals IH]; intros bot.
    - exists [], []. cbn. rewrite !app_nil_r. repeat split; lia.
    - cbn [_execute_trades length].
      pose proof (execute_trade_grows s bot) as Hstep.
      destruct (execute_trade execute_order s bot) as [[e|] bot1]; cbn [snd] in *.
      + destruct Hstep as (ext & w & H1 & H2 & H3 & H4 & H5 & H6 & H7 & H8).
        exists ext, w. repeat split; try assumption; lia.
      + apply (grows_by_trans 1 (length signals) bot bot1);
          [exact Hstep | apply IH]. }
  destruct H as (ext & w & H1 & _ & H3 & H4 & H5 & H6 & H7 & H8).
  exists ext. repeat split; try assumption. lia.
Qed.

End LoopLog.

(** ** exchange.py and dashboard.py *)

Section PaperVenue.

Import Bot.

Variable stamp : nat -> string.
Variable create_order : TradeSignal -> Py.result (gmap string PyVal).

Lemma simulate_order_priced (signal : TradeSignal) (self : Exchange.ExchangeInterface)
    (p : Q) :
  price signal = Some p -> ~ p == 0 ->
  Exchange._simulate_order stamp signal self
  = (Py.Ok (<["id" := VStr ("sim-" ++ stamp (Exchange.clock self))]>
            (<["symbol" := VStr (symbol signal)]>
            (<["side" := VStr (Exchange.side_name (side signal))]>
            (<["amount" := VNum (amount signal)]>
            (<["price" := VNum p]>
            (<["status" := VStr "filled"]>
            (<["pnl" := VNum 0]> ∅)))))))%string,
     {| Exchange.paper_trading := Exchange.paper_trading self;
        Exchange.clock := S (Exchange.clock self) |}).
Proof.
  intros Hp Hnz. unfold Exchange._simulate_order. rewrite Hp.
  destruct (Qeq_bool p 0) eqn:E; [|reflexivity].
  apply Qeq_bool_iff in E. contradiction.
Qed.

Lemma paper_order_lacks_entry_price (id sym sd : string) (a p : Q)
    (table : list (gmap string PyVal)) :
  Dashboard.record_trade
    (<["id" := VStr id]>
     (<["symbol" := VStr sym]>
     (<["side" := VStr sd]>
     (<["amount" := VNum a]>
     (<["price" := VNum p]>
     (<["status" := VStr "filled"]>
     (<["pnl" := VNum 0]> ∅)))))))%string table
  = Py.Err (Py.ValueError "Missing required fields").
Proof.
  unfold Dashboard.record_trade, Dashboard.required_fields.
  cbn [forallb]. simplify_map_eq. reflexivity.
Qed.

(** X9.  A simulated order exists exactly for a signal with a price other
    than zero.  It is reported as filled with a [pnl] of 0, repeats the
    signal's symbol, side, amount and price, and has no [entry_price]; a
    signal without a price, or with a price of zero, makes
    [_simulate_order] raise [AttributeError] for [get_price].  Either way
    the clock has been read once. *)
Theorem simulate_order_result (signal : TradeSignal)
    (self : Exchange.ExchangeInterface) :
  let result := Exchange._simulate_order stamp signal self in
  Exchange.clock (snd result) = S (Exchange.clock self)
  /\ (forall p, price signal = Some p -> ~ p == 0 ->
        exists order, fst result = Py.Ok order
          /\ order !! "status"%string = Some (VStr "filled")
          /\ order !! "pnl"%string = Some (VNum 0)
          /\ order !! "symbol"%string = Some (VStr (symbol signal))
          /\ order !! "side"%string = Some (VStr (Exchange.side_name (side signal)))
          /\ order !! "amount"%string = Some (VNum (amount signal))
          /\ order !! "price"%string = Some (VNum p)
          /\ order !! "entry_price"%string = None)
  /\ ((price signal = None \/ exists p, price signal = Some p /\ p == 0) ->
        fst result = Py.Err (Py.AttributeError "get_price")).
Proof.
  intros result. subst result.
  destruct (Exchange._simulate_order stamp signal self) as [r self'] eqn:E.
  cbn [fst snd]. split; [|split].
  - unfold Exchange._simulate_order in E.
    destruct (match price signal with
              | Some p => if Qeq_bool p 0 then None else Some p
              | None => None
              end); injection E as _ <-; reflexivity.
  - intros p Hp Hnz.
    rewrite (simulate_order_priced signal self p Hp Hnz) in E.
    injection E as <- _. eexists. split; [reflexivity|].
    repeat split; simplify_map_eq; reflexivity.
  - intros H. unfold Exchange._simulate_order in E.
    destruct H as [H | (p & H & Hz)]; rewrite H in E.
    + injection E as <- _. reflexivity.
    + apply Qeq_bool_iff in Hz. rewrite Hz in E.
      injection E as <- _. reflexivity.
Qed.

(** X10.  With the paper venue, the first approved signal that has a
    price ends the batch: its simulated order has no [entry_price], so
    [record_trade] raises [ValueError]; nothing is written to the table,
    [update_pnl] is not called and the later signals are not executed. *)
Theorem paper_batch_stops_at_recorder
    (signal : TradeSignal) (rest : list TradeSignal)
    (bot : TradingBot Exchange.ExchangeInterface) (p : Q) :
  Exchange.paper_trading (exchange bot) = true ->
  fst (Risk.approve_trade signal (risk bot)) = true ->
  price signal = Some p -> ~ p == 0 ->
  exists order,
    _execute_trades (Exchange.execute_order stamp create_order) (signal :: rest) bot
    = (Some (Py.ValueError "Missing required fields"),
       {| strategies := strategies bot;
          risk := risk bot;
          exchange := {| Exchange.paper_trading := true;
                         Exchange.clock := S (Exchange.clock (exchange bot)) |};
          dashboard := dashboard bot;
          log := log bot ++ [Executed signal; Recorded order] |}).
Proof.
  intros Hpaper Happ Hp Hnz. eexists.
  cbn [_execute_trades]. unfold execute_trade.
  pose proof (approve_trade_state signal (risk bot)) as Hst.
  destruct (Risk.approve_trade signal (risk bot)) as [approved risk1].
  cbn [fst snd] in Happ, Hst. subst approved risk1.
  unfold Exchange.execute_order. rewrite Hpaper.
  rewrite (simulate_order_priced signal (exchange bot) p Hp Hnz).
  cbn [dashboard log risk exchange strategies].
  rewrite paper_order_lacks_entry_price, Hpaper, <- !app_assoc.
  reflexivity.
Qed.

End PaperVenue.

Lemma simulate_order_result_witness :
  let self := Exchange.mkExchangeInterface true 0 in
  (exists order,
      fst (Exchange._simulate_order Fixtures.stamp (Samples.a_signal 0.9) self)
      = Py.Ok order
      /\ order !! "status"%string = Some (VStr "filled")
      /\ order !! "entry_price"%string = None)
  /\ fst (Exchange._simulate_order Fixtures.stamp Fixtures.market_signal self)
     = Py.Err (Py.AttributeError "get_price").
Proof.
  intros self. split.
  - destruct (proj1 (proj2 (simulate_order_result Fixtures.stamp
                              (Samples.a_signal 0.9) self)) 100 eq_refl)
      as (order & H1 & H2 & _ & _ & _ & _ & _ & H3).
    + cbn. discriminate.
    + exists order. repeat split; assumption.
  - apply (proj2 (proj2 (simulate_order_result Fixtures.stamp
                           Fixtures.market_signal self))).
    left. reflexivity.
Defined.

Lemma paper_batch_stops_at_recorder_witness :
  exists order,
    Bot._execute_trades (Exchange.execute_order Fixtures.stamp Fixtures.create_order)
      [Samples.a_signal 0.9; Samples.a_signal 0.8] Fixtures.paper_bot
    = (Some (Py.ValueError "Missing required fields"),
       Bot.mkTradingBot [] (Risk.init 100) (Exchange.mkExchangeInterface true 1) []
         [Bot.Executed (Samples.a_signal 0.9); Bot.Recorded order]).
Proof.
  apply (paper_batch_stops_at_recorder Fixtures.stamp Fixtures.create_order
           (Samples.a_signal 0.9) [Samples.a_signal 0.8] Fixtures.paper_bot 100
           eq_refl eq_refl eq_refl).
  cbn. discriminate.
Defined.

Section Recorder.

(** X11.  A trade that lacks any one of [id], [symbol], [side],
    [entry_price] and [amount] is refused with [ValueError], whatever else
    it holds and whatever the table holds. *)
Theorem record_trade_needs_fields (trade : gmap string PyVal)
    (table : list (gmap string PyVal)) (field : string) :
  In field Dashboard.required_fields ->
  trade !! field = None ->
  Dashboard.record_trade trade table
  = Py.Err (Py.ValueError "Missing required fields").
Proof.
  intros Hin Hnone. unfold Dashboard.record_trade.
  destruct (forallb _ Dashboard.required_fields) eqn:E; [|reflexivity].
  rewrite forallb_forall in E. specialize (E field Hin).
  rewrite Hnone in E. apply bool_decide_eq_true in E.
  destruct E as [v Hv]. discriminate Hv.
Qed.

Lemma record_trade_needs_fields_witness :
  Dashboard.record_trade Fixtures.bare_order [Samples.rejected_order]
  = Py.Err (Py.ValueError "Missing required fields").
Proof.
  apply (record_trade_needs_fields Fixtures.bare_order [Samples.rejected_order]
           "amount").
  - cbn. auto 6.
  - reflexivity.
Defined.

(** X12.  A complete trade that carries an [exit_price] and an
    [entry_price] of zero is not written: the percentage
    [exit_price / entry_price] raises [ZeroDivisionError]. *)
Theorem record_trade_zero_entry (trade : gmap string PyVal)
    (table : list (gmap string PyVal)) (x e a : Q) :
  (forall field, In field Dashboard.required_fields -> is_Some (trade !! field)) ->
  trade !! "exit_price"%string = Some (VNum x) ->
  trade !! "entry_price"%string = Some (VNum e) ->
  trade !! "amount"%string = Some (VNum a) ->
  e == 0 ->
  Dashboard.record_trade trade table = Py.Err Py.ZeroDivisionError.
Proof.
  intros Hall Hx He Ha Hz. unfold Dashboard.record_trade.
  replace (forallb _ Dashboard.required_fields) with true.
  2:{ symmetry. apply forallb_forall. intros f Hf.
      apply bool_decide_eq_true. apply Hall, Hf. }
  unfold Dashboard.exit_arithmetic. rewrite Hx, He, Ha.
  apply Qeq_bool_iff in Hz. rewrite Hz. reflexivity.
Qed.

Lemma record_trade_zero_entry_witness :
  Dashboard.record_trade Fixtures.free_trade [] = Py.Err Py.ZeroDivisionError.
Proof.
  apply (record_trade_zero_entry Fixtures.free_trade [] 100 0 1);
    try reflexivity.
  intros field Hin. cbn in Hin.
  destruct Hin as [<- | [<- | [<- | [<- | [<- | []]]]]]; vm_compute; eauto.
Defined.

(** X13.  [calculate_pnl] is zero when the exit equals the entry, changes
    sign when entry and exit are swapped, and adds up over a position
    carried through an intermediate price. *)
Theorem calculate_pnl_chains (a b c amount : Q) :
  calculate_pnl a a amount == 0
  /\ calculate_pnl b a amount == - calculate_pnl a b amount
  /\ calculate_pnl a b amount + calculate_pnl b c amount
     == calculate_pnl a c amount.
Proof. unfold calculate_pnl. repeat split; ring. Qed.

End Recorder.

(** ** strategies.py *)

Lemma iloc_neg_in_range {A : Type} (l : list A) (i : nat) :
  (1 <= i <= length l)%nat -> exists a, Py.iloc_neg l i = Py.Ok a.
Proof.
  intros [H1 H2]. unfold Py.iloc_neg.
  destruct i as [|i]; [lia|].
  replace (S i <=? length l)%nat with true
    by (symmetry; apply Nat.leb_le; exact H2).
  destruct (nth_error l (length l - S i)) as [a|] eqn:E; [eauto|].
  apply nth_error_None in E. lia.
Qed.

Lemma min_one_bounds (x : Q) : 0 < x -> 0 < Py.min 1 x /\ Py.min 1 x <= 1.
Proof.
  intros Hx. unfold Py.min. destruct (Py.ltb x 1) eqn:E.
  - apply ltb_lt in E. split; [exact Hx | apply Qlt_le_weak, E].
  - split; [reflexivity | apply Qle_refl].
Qed.

Section StrategiesMore.

Variable BBANDS : list Q -> Z -> Q -> Q ->
  Py.result (list (option Q) * list (option Q) * list (option Q)).
Variable RSI : list Q -> Z -> Py.result (list (option Q)).
Variable SMA : list Q -> Z -> Py.result (list (option Q)).

(** X14.  [MomentumStrategy.analyze] and [BreakoutStrategy.analyze] never
    return a signal: whatever the indicators and the frame are, a call
    that returns gives the empty list. *)
Theorem momentum_and_breakout_never_signal
    (self : Strategy) (sym : string) (data : DataFrame)
    (signals : list TradeSignal) :
  cls self = MomentumStrategy \/ cls self = BreakoutStrategy ->
  analyze BBANDS RSI SMA self sym data = Py.Ok signals ->
  signals = [].
Proof.
  unfold analyze. intros [Hc | Hc] H; rewrite Hc in H.
  - exact (momentum_returns_nothing SMA self sym data signals Hc H).
  - exact (breakout_returns_nothing self sym data signals Hc H).
Qed.

(** X15.  On a frame long enough and with both averages computed, the
    momentum strategy raises [AttributeError] exactly when the position
    changes at the last candle, in either direction, and returns the empty
    list when it does not. *)
Theorem momentum_raises_on_any_crossing
    (self : Strategy) (sym : string) (data : DataFrame)
    (fast slow : list (option Q)) (latest : Candle) (x : Z) :
  cls self = MomentumStrategy ->
  (slow_ma self * 2 <= len data)%Z ->
  SMA (column close data) (fast_ma self) = Py.Ok fast ->
  SMA (column close data) (slow_ma self) = Py.Ok slow ->
  Py.iloc_neg (rows data) 1 = Py.Ok latest ->
  Pandas.last_value (Pandas.diff (Pandas.where_gt fast slow)) = Some x ->
  (x <> 0%Z ->
     analyze BBANDS RSI SMA self sym data
     = Py.Err (Py.AttributeError "_calculate_position_size"))
  /\ (x = 0%Z -> analyze BBANDS RSI SMA self sym data = Py.Ok []).
Proof.
  intros Hc Hlen Hf Hs Hl Hx.
  unfold analyze. rewrite Hc. unfold analyze_momentum.
  apply Z.ltb_ge in Hlen. rewrite Hlen, Hf. cbn [Py.bind].
  rewrite Hs. cbn [Py.bind]. rewrite Hl. cbn [Py.bind]. rewrite Hx.
  rewrite !(no_position_size_method self _ (or_introl Hc)). cbn [Py.bind].
  split; intros H.
  - destruct (0 <? x)%Z eqn:E1; [reflexivity|].
    destruct (x <? 0)%Z eqn:E2; [reflexivity|].
    apply Z.ltb_ge in E1, E2. lia.
  - subst x. reflexivity.
Qed.

(** X16.  On a frame with the default integer index and at least twice
    [resistance_window] rows (the window being at least 1), the breakout
    strategy always raises [KeyError] for the label -2. *)
Theorem breakout_raises_on_default_index
    (self : Strategy) (sym : string) (data : DataFrame) :
  cls self = BreakoutStrategy ->
  index data = RangeIndex ->
  (1 <= resistance_window self)%Z ->
  (resistance_window self * 2 <= len data)%Z ->
  analyze BBANDS RSI SMA self sym data = Py.Err (Py.KeyError (-2)).
Proof.
  intros Hc Hidx Hw Hlen.
  unfold analyze. rewrite Hc. unfold analyze_breakout.
  assert (Hrows : (2 <= length (rows data))%nat) by (unfold len in Hlen; lia).
  apply Z.ltb_ge in Hlen. rewrite Hlen.
  unfold Pandas.rolling_max, Pandas.rolling_min, Pandas.rolling.
  replace (resistance_window self <? 0)%Z with false
    by (symmetry; apply Z.ltb_ge; lia).
  cbn [Py.bind].
  destruct (iloc_neg_in_range (rows data) 1) as [c1 ->]; [lia|].
  destruct (iloc_neg_in_range (rows data) 2) as [c2 ->]; [lia|].
  cbn [Py.bind]. rewrite Hidx. reflexivity.
Qed.

End StrategiesMore.

Lemma momentum_and_breakout_never_signal_witness :
  analyze Samples.bands (Indicators.fixed_rsi 50) Indicators.sma
    Samples.momentum_default "BTC/USDT" Samples.falling = Py.Ok []
  /\ ([] : list TradeSignal) = [].
Proof.
  assert (H : analyze Samples.bands (Indicators.fixed_rsi 50) Indicators.sma
                Samples.momentum_default "BTC/USDT" Samples.falling = Py.Ok [])
    by (vm_compute; reflexivity).
  split; [exact H|].
  exact (momentum_and_breakout_never_signal Samples.bands (Indicators.fixed_rsi 50)
           Indicators.sma Samples.momentum_default "BTC/USDT" Samples.falling []
           (or_introl eq_refl) H).
Defined.

Lemma breakout_raises_on_default_index_witness :
  analyze Samples.bands (Indicators.fixed_rsi 50) Indicators.sma
    Samples.breakout_default "BTC/USDT" Samples.flat_40
  = Py.Err (Py.KeyError (-2)).
Proof.
  apply breakout_raises_on_default_index; [reflexivity | reflexivity | | ];
    vm_compute; discriminate.
Defined.

(** ** The rolling extremes at the last candle *)

Lemma fold_left_qmax_ge (xs : list Q) (x : Q) :
  x <= fold_left Pandas.qmax xs x
  /\ forall y, In y xs -> y <= fold_left Pandas.qmax xs x.
Proof.
  revert x. induction xs as [|z xs IH]; intros x; cbn [fold_left].
  - split; [apply Qle_refl | intros y []].
  - destruct (IH (Pandas.qmax x z)) as [H1 H2].
    assert (Hx : x <= Pandas.qmax x z /\ z <= Pandas.qmax x z).
    { unfold Pandas.qmax. destruct (Py.ltb x z) eqn:E.
      - apply ltb_lt in E. split; [apply Qlt_le_weak, E | apply Qle_refl].
      - apply ltb_ge in E. split; [apply Qle_refl | exact E]. }
    split.
    + eapply Qle_trans; [apply Hx | exact H1].
    + intros y [<- | Hy]; [eapply Qle_trans; [apply Hx | exact H1] | apply H2, Hy].
Qed.

Lemma fold_left_qmin_le (xs : list Q) (x : Q) :
  fold_left Pandas.qmin xs x <= x
  /\ forall y, In y xs -> fold_left Pandas.qmin xs x <= y.
Proof.
  revert x. induction xs as [|z xs IH]; intros x; cbn [fold_left].
  - split; [apply Qle_refl | intros y []].
  - destruct (IH (Pandas.qmin x z)) as [H1 H2].
    assert (Hx : Pandas.qmin x z <= x /\ Pandas.qmin x z <= z).
    { unfold Pandas.qmin. destruct (Py.ltb z x) eqn:E.
      - apply ltb_lt in E. split; [apply Qlt_le_weak, E | apply Qle_refl].
      - apply ltb_ge in E. split; [apply Qle_refl | exact E]. }
    split.
    + eapply Qle_trans; [exact H1 | apply Hx].
    + intros y [<- | Hy]; [eapply Qle_trans; [exact H1 | apply Hx] | apply H2, Hy].
Qed.

Lemma fold1_qmax_ge (xs : list Q) (y : Q) :
  In y xs -> exists m, Pandas.fold1 Pandas.qmax xs = Some m /\ y <= m.
Proof.
  destruct xs as [|x xs]; [intros []|]. intros Hy. cbn [Pandas.fold1].
  eexists. split; [reflexivity|].
  destruct (fold_left_qmax_ge xs x) as [H1 H2].
  destruct Hy as [<- | Hy]; [exact H1 | apply H2, Hy].
Qed.

Lemma fold1_qmin_le (xs : list Q) (y : Q) :
  In y xs -> exists m, Pandas.fold1 Pandas.qmin xs = Some m /\ m <= y.
Proof.
  destruct xs as [|x xs]; [intros []|]. intros Hy. cbn [Pandas.fold1].
  eexists. split; [reflexivity|].
  destruct (fold_left_qmin_le xs x) as [H1 H2].
  destruct Hy as [<- | Hy]; [exact H1 | apply H2, Hy].
Qed.

(** The last value of the list lies in the window that ends there. *)
Lemma last_in_window (n : nat) (xs : list Q) (x : Q) :
  (1 <= n)%nat ->
  nth_error xs (length xs - 1) = Some x ->
  In x (Pandas.window n (length xs - 1) xs).
Proof.
  intros Hn Hx. unfold Pandas.window.
  assert (Hlen : (1 <= length xs)%nat).
  { destruct xs; [cbn in Hx; discriminate | cbn; lia]. }
  set (k := (S (length xs - 1) - n)%nat).
  assert (Hk : (k <= length xs - 1)%nat) by (unfold k; lia).
  assert (Hnth : nth_error (firstn n (skipn k xs)) (length xs - 1 - k) = Some x).
  { rewrite nth_error_firstn.
    replace (length xs - 1 - k <? n)%nat with true
      by (symmetry; apply Nat.ltb_lt; unfold k; lia).
    rewrite nth_error_skipn.
    replace (k + (length xs - 1 - k))%nat with (length xs - 1)%nat by lia.
    exact Hx. }
  exact (nth_error_In _ _ Hnth).
Qed.

Lemma iloc_neg_nth {A : Type} (l : list A) (i : nat) (a : A) :
  Py.iloc_neg l i = Py.Ok a -> nth_error l (length l - i) = Some a.
Proof.
  unfold Py.iloc_neg. destruct i; [discriminate|].
  destruct (S i <=? length l)%nat; [|discriminate].
  destruct (nth_error l (length l - S i)); [|discriminate].
  intros H. injection H as ->. reflexivity.
Qed.

(** The rolling extreme at the last position, when the window fits. *)
Lemma rolling_last (op : Q -> Q -> Q) (w : Z) (xs : list Q) :
  (1 <= w)%Z -> (w <= Z.of_nat (length xs))%Z ->
  exists series,
    Pandas.rolling op w xs = Py.Ok series
    /\ length series = length xs
    /\ Py.iloc_neg series 1
       = Py.Ok (Pandas.fold1 op (Pandas.window (Z.to_nat w) (length xs - 1) xs)).
Proof.
  intros Hw Hlen. unfold Pandas.rolling.
  replace (w <? 0)%Z with false by (symmetry; apply Z.ltb_ge; lia).
  eexists. split; [reflexivity|].
  assert (Hl : length (map (fun i : nat =>
                 if (S i <? Z.to_nat w)%nat then None
                 else Pandas.fold1 op (Pandas.window (Z.to_nat w) i xs))
                 (seq 0 (length xs))) = length xs)
    by (rewrite length_map, length_seq; reflexivity).
  split; [exact Hl|].
  unfold Py.iloc_neg. rewrite Hl.
  replace (1 <=? length xs)%nat with true by (symmetry; apply Nat.leb_le; lia).
  rewrite nth_error_map, nth_error_seq.
  replace (length xs - 1 <? length xs)%nat with true
    by (symmetry; apply Nat.ltb_lt; lia).
  cbn [option_map Nat.add].
  replace (S (length xs - 1) <? Z.to_nat w)%nat with false
    by (symmetry; apply Nat.ltb_ge; lia).
  reflexivity.
Qed.

Lemma iloc_neg_map {A B : Type} (f : A -> B) (l : list A) (i : nat) (a : A) :
  Py.iloc_neg l i = Py.Ok a -> Py.iloc_neg (map f l) i = Py.Ok (f a).
Proof.
  unfold Py.iloc_neg. destruct i; [discriminate|].
  rewrite length_map.
  destruct (S i <=? length l)%nat; [|discriminate].
  rewrite nth_error_map.
  destruct (nth_error l (length l - S i)); [|discriminate].
  intros H. injection H as ->. reflexivity.
Qed.

Lemma range1_head (n : Z) : (1 <= n)%Z -> exists rest, range1 n = 1%nat :: rest.
Proof.
  intros Hn. unfold range1.
  destruct (Z.to_nat n) as [|k] eqn:E; [lia|].
  eexists. reflexivity.
Qed.

Section BreakoutConfirmation.

Variable BBANDS : list Q -> Z -> Q -> Q ->
  Py.result (list (option Q) * list (option Q) * list (option Q)).
Variable RSI : list Q -> Z -> Py.result (list (option Q)).
Variable SMA : list Q -> Z -> Py.result (list (option Q)).

(** X17.  On a frame whose index is not the integer one, with at least
    twice [resistance_window] rows and at least one confirmation candle,
    the breakout strategy returns the empty list whenever the last close
    lies between the last low and the last high: the confirmation compares
    that close with the extreme of a window that contains the candle
    itself, and cannot pass. *)
Theorem breakout_never_confirms
    (self : Strategy) (sym : string) (data : DataFrame) (latest : Candle) :
  cls self = BreakoutStrategy ->
  index data = LabelIndex ->
  (1 <= resistance_window self)%Z ->
  (resistance_window self * 2 <= len data)%Z ->
  (1 <= confirmation_candles self)%Z ->
  Py.iloc_neg (rows data) 1 = Py.Ok latest ->
  well_formed latest ->
  analyze BBANDS RSI SMA self sym data = Py.Ok [].
Proof.
  intros Hc Hidx Hw Hlen Hcc Hlatest [Hlow Hhigh].
  unfold analyze. rewrite Hc. unfold analyze_breakout.
  assert (Hrows : (2 <= length (rows data))%nat) by (unfold len in Hlen; lia).
  assert (HlenZ : (resistance_window self <= Z.of_nat (length (rows data)))%Z)
    by (unfold len in Hlen; lia).
  apply Z.ltb_ge in Hlen. rewrite Hlen.
  destruct (rolling_last Pandas.qmax (resistance_window self) (column high data))
    as (resistance & Hres & Hreslen & Hreslast);
    [exact Hw | unfold column; rewrite length_map; exact HlenZ |].
  destruct (rolling_last Pandas.qmin (resistance_window self) (column low data))
    as (support & Hsup & Hsuplen & Hsuplast);
    [exact Hw | unfold column; rewrite length_map; exact HlenZ |].
  unfold Pandas.rolling_max, Pandas.rolling_min. rewrite Hres, Hsup.
  cbn [Py.bind]. rewrite Hlatest. cbn [Py.bind].
  destruct (iloc_neg_in_range (rows data) 2) as [prev ->]; [lia|].
  cbn [Py.bind]. rewrite Hidx.
  unfold column in Hreslen, Hsuplen. rewrite length_map in Hreslen, Hsuplen.
  change (Pandas.getitem LabelIndex resistance (-2)) with (Py.iloc_neg resistance 2).
  change (Pandas.getitem LabelIndex support (-2)) with (Py.iloc_neg support 2).
  destruct (iloc_neg_in_range resistance 2) as [resistance_prev ->]; [lia|].
  destruct (iloc_neg_in_range support 2) as [support_prev ->]; [lia|].
  cbn [Py.bind].
  destruct (range1_head (confirmation_candles self) Hcc) as [rest ->].
  pose proof (iloc_neg_map close (rows data) 1 latest Hlatest) as Hclose.
  pose proof (iloc_neg_nth (rows data) 1 latest Hlatest) as Hnth.
  (* the extremes at the last candle bound its close *)
  assert (Hmax : exists m, Py.iloc_neg resistance 1 = Py.Ok (Some m) /\ close latest <= m).
  { destruct (fold1_qmax_ge
                (Pandas.window (Z.to_nat (resistance_window self))
                               (length (column high data) - 1) (column high data))
                (high latest)) as (m & Hm & Hle).
    - apply last_in_window; [lia|].
      unfold column. rewrite length_map, nth_error_map, Hnth. reflexivity.
    - exists m. rewrite Hreslast, Hm. split; [reflexivity|].
      eapply Qle_trans; [exact Hhigh | exact Hle]. }
  assert (Hmin : exists m, Py.iloc_neg support 1 = Py.Ok (Some m) /\ m <= close latest).
  { destruct (fold1_qmin_le
                (Pandas.window (Z.to_nat (resistance_window self))
                               (length (column low data) - 1) (column low data))
                (low latest)) as (m & Hm & Hle).
    - apply last_in_window; [lia|].
      unfold column. rewrite length_map, nth_error_map, Hnth. reflexivity.
    - exists m. rewrite Hsuplast, Hm. split; [reflexivity|].
      eapply Qle_trans; [exact Hle | exact Hlow]. }
  destruct Hmax as (hi & Hhi & Hhile). destruct Hmin as (lo & Hlo & Hlole).
  assert (Hup : all_closes (fun c r => Py.nan_ltb r c) (column close data)
                  resistance (1%nat :: rest) = Py.Ok false).
  { cbn [all_closes]. unfold column. rewrite Hclose. cbn [Py.bind].
    rewrite Hhi. cbn [Py.bind Py.nan_ltb].
    replace (Py.ltb hi (close latest)) with false; [reflexivity|].
    symmetry. apply ltb_ge. exact Hhile. }
  assert (Hdown : all_closes (fun c s => Py.nan_ltb c s) (column close data)
                    support (1%nat :: rest) = Py.Ok false).
  { cbn [all_closes]. unfold column. rewrite Hclose. cbn [Py.bind].
    rewrite Hlo. cbn [Py.bind Py.nan_ltb].
    replace (Py.ltb (close latest) lo) with false; [reflexivity|].
    symmetry. apply ltb_ge. exact Hlole. }
  rewrite Hup, Hdown. cbn [Py.bind].
  destruct (_ && _); [reflexivity|].
  destruct (_ && _); reflexivity.
Qed.

End BreakoutConfirmation.

Lemma breakout_never_confirms_witness :
  analyze Samples.bands (Indicators.fixed_rsi 50) Indicators.sma
    Samples.breakout_default "BTC/USDT" (Samples.two_bar_breakout LabelIndex)
  = Py.Ok [].
Proof.
  apply (breakout_never_confirms Samples.bands (Indicators.fixed_rsi 50)
           Indicators.sma Samples.breakout_default "BTC/USDT"
           (Samples.two_bar_breakout LabelIndex) (Samples.flat 29 120 10));
    try reflexivity; try (vm_compute; discriminate).
  split; vm_compute; discriminate.
Defined.

(** ** What a returned signal looks like *)

Section SignalShape.

Variable BBANDS : list Q -> Z -> Q -> Q ->
  Py.result (list (option Q) * list (option Q) * list (option Q)).
Variable RSI : list Q -> Z -> Py.result (list (option Q)).
Variable SMA : list Q -> Z -> Py.result (list (option Q)).

Lemma candidates_shape (self : Strategy) (sym : string) (data : DataFrame)
    (candidates : list TradeSignal) :
  mean_reversion_signals BBANDS RSI self sym data = Py.Ok candidates ->
  (length candidates <= 1)%nat /\ Forall (signal_shape sym) candidates.
Proof.
  unfold mean_reversion_signals. intros H.
  repeat returns_step; cbn [length]; (split; [lia|]); repeat constructor;
    cbn [price confidence]; eauto.
  - apply andb_prop in E3. destruct E3 as [_ Hlt]. apply ltb_lt in Hlt.
    apply min_one_bounds. apply Qlt_shift_div_l; [reflexivity|].
    rewrite Qmult_0_l. unfold Qminus. rewrite <- Qlt_minus_iff. exact Hlt.
  - apply andb_prop in E3. destruct E3 as [_ Hlt]. apply ltb_lt in Hlt.
    apply min_one_bounds. apply Qlt_shift_div_l; [reflexivity|].
    rewrite Qmult_0_l. unfold Qminus. rewrite <- Qlt_minus_iff. exact Hlt.
  - apply andb_prop in E4. destruct E4 as [_ Hlt]. apply ltb_lt in Hlt.
    apply min_one_bounds. apply Qlt_shift_div_l; [reflexivity|].
    rewrite Qmult_0_l. unfold Qminus. rewrite <- Qlt_minus_iff. exact Hlt.
  - apply andb_prop in E4. destruct E4 as [_ Hlt]. apply ltb_lt in Hlt.
    apply min_one_bounds. apply Qlt_shift_div_l; [reflexivity|].
    rewrite Qmult_0_l. unfold Qminus. rewrite <- Qlt_minus_iff. exact Hlt.
Qed.

(** X18.  Whatever the strategy, the indicators and the frame, a call of
    [analyze] that returns gives at most one signal, and that signal is a
    limit order for the symbol asked, with a price, and with a confidence
    above 0, at most 1 and at least [min_confidence]; no market order is
    ever returned. *)
Theorem returned_signals_shape (self : Strategy) (sym : string)
    (data : DataFrame) (signals : list TradeSignal) :
  analyze BBANDS RSI SMA self sym data = Py.Ok signals ->
  (length signals <= 1)%nat
  /\ Forall (fun s => signal_shape sym s /\ min_confidence self <= confidence s)
            signals.
Proof.
  intros H. unfold analyze in H. destruct (cls self) eqn:Hc.
  - discriminate H.
  - unfold analyze_mean_reversion in H.
    destruct (len data <? _)%Z.
    + injection H as <-. split; [cbn; lia | constructor].
    + destruct (mean_reversion_signals BBANDS RSI self sym data)
        as [candidates|e] eqn:Hcand; [|discriminate H].
      cbn [Py.bind] in H. injection H as <-.
      destruct (candidates_shape self sym data candidates Hcand) as [Hlen Hshape].
      split.
      * eapply Nat.le_trans; [apply List.filter_length_le | exact Hlen].
      * apply List.Forall_forall. intros s Hin.
        apply filter_In in Hin. destruct Hin as [Hin Hv]. split.
        -- rewrite List.Forall_forall in Hshape. apply Hshape, Hin.
        -- apply leb_le in Hv. exact Hv.
  - rewrite (momentum_returns_nothing SMA self sym data signals Hc H).
    split; [cbn; lia | constructor].
  - rewrite (breakout_returns_nothing self sym data signals Hc H).
    split; [cbn; lia | constructor].
Qed.

(** X19.  On a frame long enough and with the indicators computed, the
    mean-reversion strategy returns the empty list when the last
    oscillator value is NaN or lies between 30 and 70, both included,
    wherever the close is relative to the bands. *)
Theorem mean_reversion_neutral_zone
    (self : Strategy) (sym : string) (data : DataFrame)
    (bands : list (option Q) * list (option Q) * list (option Q))
    (rsi : list (option Q)) (latest : Candle) :
  cls self = MeanReversionStrategy ->
  BBANDS (column close data) (bb_window self) (bb_std self) (bb_std self)
    = Py.Ok bands ->
  RSI (column close data) (rsi_window self) = Py.Ok rsi ->
  Py.iloc_neg (rows data) 1 = Py.Ok latest ->
  (Pandas.last_value rsi = None
   \/ exists r, Pandas.last_value rsi = Some r /\ 30 <= r /\ r <= 70) ->
  analyze BBANDS RSI SMA self sym data = Py.Ok [].
Proof.
  intros Hc Hbb Hrsi Hlatest Hzone.
  unfold analyze. rewrite Hc. unfold analyze_mean_reversion.
  destruct (len data <? _)%Z; [reflexivity|].
  unfold mean_reversion_signals. rewrite Hbb. cbn [Py.bind].
  destruct bands as [[upper middle] lower].
  rewrite Hrsi. cbn [Py.bind]. rewrite Hlatest. cbn [Py.bind].
  destruct Hzone as [-> | (r & -> & Hlo & Hhi)]; [reflexivity|].
  apply ltb_ge in Hlo, Hhi. rewrite Hlo, Hhi, !andb_false_r. reflexivity.
Qed.

(** X20.  The position size times the price is the risk budget
    [account_size * risk_per_trade], for any price other than zero: 100
    with the default account of 10000 and risk of 1%. *)
Theorem position_value_is_risk_budget (self : Strategy) (p : Q) :
  ~ p == 0 ->
  _calculate_position_size self p * p
  == get (cfg_account_size (config self)) 10000
     * get (cfg_risk_per_trade (config self)) (1 # 100)
  /\ (cfg_account_size (config self) = None ->
      cfg_risk_per_trade (config self) = None ->
      _calculate_position_size self p * p == 100).
Proof.
  intros Hp. unfold _calculate_position_size. split.
  - field. exact Hp.
  - intros -> ->. cbn [get]. field. exact Hp.
Qed.

End SignalShape.

Lemma returned_signals_shape_witness :
  exists s,
    analyze Samples.bands (Indicators.fixed_rsi 3) Indicators.sma
      Samples.mean_reversion_default "BTC/USDT" Samples.flat_40 = Py.Ok [s]
    /\ Forall (fun s => signal_shape "BTC/USDT" s
                       /\ min_confidence Samples.mean_reversion_default
                          <= confidence s) [s].
Proof.
  eexists. split; [vm_compute; reflexivity|].
  apply (proj2 (returned_signals_shape Samples.bands (Indicators.fixed_rsi 3)
                  Indicators.sma Samples.mean_reversion_default "BTC/USDT"
                  Samples.flat_40 _ eq_refl)).
Defined.

Lemma mean_reversion_neutral_zone_witness :
  analyze Samples.bands (Indicators.fixed_rsi 30) Indicators.sma
    Samples.mean_reversion_default "BTC/USDT" Samples.flat_40 = Py.Ok [].
Proof.
  eapply (mean_reversion_neutral_zone Samples.bands (Indicators.fixed_rsi 30)
            Indicators.sma Samples.mean_reversion_default "BTC/USDT"
            Samples.flat_40); try reflexivity.
  right. exists 30. split; [reflexivity|]. split; discriminate.
Defined.

Lemma position_value_is_risk_budget_witness :
  _calculate_position_size Samples.mean_reversion_default 250 * 250 == 100.
Proof.
  apply (position_value_is_risk_budget Samples.mean_reversion_default 250);
    [discriminate | reflexivity | reflexivity].
Defined.

Lemma momentum_raises_on_any_crossing_witness :
  analyze Samples.bands (Indicators.fixed_rsi 50) Indicators.sma
    Samples.momentum_default "BTC/USDT" Samples.falling_then_spike
  = Py.Err (Py.AttributeError "_calculate_position_size").
Proof.
  eapply (proj1 (momentum_raises_on_any_crossing Samples.bands
                   (Indicators.fixed_rsi 50) Indicators.sma
                   Samples.momentum_default "BTC/USDT" Samples.falling_then_spike
                   _ _ _ _ eq_refl _ _ _ _ _)).
  Unshelve.
  all: try (vm_compute; reflexivity).
  all: try (vm_compute; discriminate).
Defined.

(** ** The factory *)

Section FactoryMore.

Lemma create_cases (cfg : Config) (s : Strategy) :
  StrategyFactory.create cfg = Py.Ok s ->
  config s = cfg
  /\ ((get (cfg_type cfg) "mean_reversion" = "mean_reversion"
       /\ cls s = MeanReversionStrategy)
      \/ (get (cfg_type cfg) "mean_reversion" = "momentum"
          /\ cls s = MomentumStrategy)
      \/ (get (cfg_type cfg) "mean_reversion" = "breakout"
          /\ cls s = BreakoutStrategy))%string.
Proof.
  unfold StrategyFactory.create. intros H.
  destruct (String.eqb _ "mean_reversion") eqn:E1.
  { injection H as <-. apply String.eqb_eq in E1. split; [reflexivity|].
    left. split; [exact E1 | reflexivity]. }
  destruct (String.eqb _ "momentum") eqn:E2.
  { injection H as <-. apply String.eqb_eq in E2. split; [reflexivity|].
    right. left. split; [exact E2 | reflexivity]. }
  destruct (String.eqb _ "breakout") eqn:E3; [|discriminate H].
  injection H as <-. apply String.eqb_eq in E3. split; [reflexivity|].
  right. right. split; [exact E3 | reflexivity].
Qed.

(** X21.  [StrategyFactory.create] returns a strategy exactly when the
    kind, [mean_reversion] if none is given, is one of the three known
    ones; the strategy keeps the configuration it was made from and is of
    the class the kind names. *)
Theorem create_by_kind (cfg : Config) :
  ((exists s, StrategyFactory.create cfg = Py.Ok s)
   <-> In (get (cfg_type cfg) "mean_reversion"%string) StrategyFactory.known_kinds)
  /\ (cfg_type cfg = None ->
      StrategyFactory.create cfg = Py.Ok (mkStrategy MeanReversionStrategy cfg))
  /\ (forall s, StrategyFactory.create cfg = Py.Ok s ->
      config s = cfg
      /\ ((get (cfg_type cfg) "mean_reversion" = "mean_reversion"
           /\ cls s = MeanReversionStrategy)
          \/ (get (cfg_type cfg) "mean_reversion" = "momentum"
              /\ cls s = MomentumStrategy)
          \/ (get (cfg_type cfg) "mean_reversion" = "breakout"
              /\ cls s = BreakoutStrategy))%string).
Proof.
  split; [|split].
  - split.
    + intros [s H]. destruct (create_cases cfg s H) as [_ [[-> _] | [[-> _] | [-> _]]]];
        cbn; auto.
    + unfold StrategyFactory.create. cbn [In StrategyFactory.known_kinds].
      intros [<- | [<- | [<- | []]]]; cbn; eauto.
  - intros H. unfold StrategyFactory.create. rewrite H. reflexivity.
  - apply create_cases.
Qed.

Lemma create_strategies_keeps (configs : list Config) (ss : list Strategy) :
  Bot.create_strategies configs = Py.Ok ss ->
  map config ss = configs /\ Forall (fun s => cls s <> StrategyBase) ss.
Proof.
  revert ss. induction configs as [|c configs IH]; intros ss H; cbn in H.
  - injection H as <-. split; [reflexivity | constructor].
  - destruct (StrategyFactory.create c) as [s|e] eqn:Hc; [|discriminate H].
    cbn [Py.bind] in H.
    destruct (Bot.create_strategies configs) as [ss'|e]; [|discriminate H].
    cbn [Py.bind] in H. injection H as <-.
    destruct (IH ss' eq_refl) as [H1 H2].
    destruct (create_cases c s Hc) as [Hcfg Hcls].
    split; [cbn; rewrite Hcfg, H1; reflexivity|].
    constructor; [|exact H2].
    destruct Hcls as [[_ ->] | [[_ ->] | [_ ->]]]; discriminate.
Qed.

(** X22.  When the construction of the bot succeeds there is one
    strategy per configuration, in the order of the list, each holding
    its configuration and none of them of the abstract base class. *)
Theorem startup_keeps_configurations (configs : list Config) (ss : list Strategy) :
  Bot.main configs = Bot.Running ss ->
  map config ss = configs
  /\ length ss = length configs
  /\ Forall (fun s => cls s <> StrategyBase) ss.
Proof.
  unfold Bot.main. intros H.
  destruct (Bot.create_strategies configs) as [ss'|e] eqn:E; [|discriminate H].
  injection H as <-.
  destruct (create_strategies_keeps configs ss' E) as [H1 H2].
  split; [exact H1|]. split; [|exact H2].
  rewrite <- H1, length_map. reflexivity.
Qed.

End FactoryMore.

Lemma create_by_kind_witness :
  let cfg := mkConfig (Some "breakout"%string) None None None None
                      None None None None None None in
  StrategyFactory.create cfg = Py.Ok (mkStrategy BreakoutStrategy cfg)
  /\ StrategyFactory.create empty_config
     = Py.Ok (mkStrategy MeanReversionStrategy empty_config).
Proof.
  intros cfg. split.
  - destruct (proj2 (proj1 (create_by_kind cfg))) as [s Hs]; [cbn; auto|].
    destruct (proj2 (proj2 (create_by_kind cfg)) s Hs)
      as [Hcfg [[Hk _] | [[Hk _] | [_ Hcls]]]];
      [discriminate Hk | discriminate Hk |].
    rewrite Hs. destruct s as [c k]. cbn in Hcfg, Hcls. subst. reflexivity.
  - apply (proj1 (proj2 (create_by_kind empty_config))). reflexivity.
Defined.

Lemma startup_keeps_configurations_witness :
  let configs := [empty_config;
                  mkConfig (Some "momentum"%string) None None None None
                           None None None None None None] in
  exists ss, Bot.main configs = Bot.Running ss /\ map config ss = configs.
Proof.
  intros configs. eexists. split; [reflexivity|].
  apply (startup_keeps_configurations configs _ eq_refl).
Defined.

(** ** bot.py: the analysis pass *)

Section PassFacts.

Variable BBANDS : list Q -> Z -> Q -> Q ->
  Py.result (list (option Q) * list (option Q) * list (option Q)).
Variable RSI : list Q -> Z -> Py.result (list (option Q)).
Variable SMA : list Q -> Z -> Py.result (list (option Q)).
Variable Provider : Type.
Variable get_ohlcv : string -> Provider -> Py.result DataFrame * Provider.

Abbreviation analyze_symbol := (Markets.analyze_symbol BBANDS RSI SMA).
Abbreviation analyze_watchlist :=
  (Markets.analyze_watchlist BBANDS RSI SMA Provider get_ohlcv).
Abbreviation _analyze_markets :=
  (Markets._analyze_markets BBANDS RSI SMA Provider get_ohlcv).

Lemma analyze_symbol_fails (strategies : list Strategy) (sym : string)
    (data : DataFrame) (s : Strategy) (e : Py.exn) (acc : list TradeSignal) :
  In s strategies ->
  analyze BBANDS RSI SMA s sym data = Py.Err e ->
  exists e', analyze_symbol strategies sym data acc = Py.Err e'.
Proof.
  revert acc. induction strategies as [|s0 strategies IH]; intros acc Hin He;
    [destruct Hin|].
  cbn [Markets.analyze_symbol].
  destruct (analyze BBANDS RSI SMA s0 sym data) as [found|e0] eqn:E0.
  - cbn [Py.bind]. destruct Hin as [-> | Hin]; [congruence|].
    apply IH; assumption.
  - exists e0. reflexivity.
Qed.

(** X23.  One failure ends the analysis pass: when the provider raises
    for the first symbol, or any one strategy raises on its frame,
    [_analyze_markets] raises and returns no signal at all, not even those
    the strategies before it had found. *)
Theorem one_failure_fails_the_pass
    (strategies : list Strategy) (sym : string) (rest : list string)
    (provider provider' : Provider) :
  (forall e, get_ohlcv sym provider = (Py.Err e, provider') ->
     _analyze_markets strategies (Some (sym :: rest)) provider
     = (Py.Err e, provider'))
  /\ (forall data s e,
        get_ohlcv sym provider = (Py.Ok data, provider') ->
        In s strategies ->
        analyze BBANDS RSI SMA s sym data = Py.Err e ->
        exists e', _analyze_markets strategies (Some (sym :: rest)) provider
                   = (Py.Err e', provider')).
Proof.
  unfold Markets._analyze_markets. cbn [get Markets.analyze_watchlist]. split.
  - intros e ->. reflexivity.
  - intros data s e -> Hin He.
    destruct (analyze_symbol_fails strategies sym data s e [] Hin He) as [e' ->].
    exists e'. reflexivity.
Qed.

Lemma analyze_symbol_each (strategies : list Strategy) (sym : string)
    (data : DataFrame) (acc : list TradeSignal) :
  analyze_symbol strategies sym data acc
  = (do found <- analyze_each BBANDS RSI SMA strategies sym data;
     Py.Ok (acc ++ concat found)).
Proof.
  revert acc. induction strategies as [|s strategies IH]; intros acc.
  - cbn. rewrite app_nil_r. reflexivity.
  - cbn [Markets.analyze_symbol analyze_each].
    destruct (analyze BBANDS RSI SMA s sym data) as [found|e]; [|reflexivity].
    cbn [Py.bind]. rewrite IH.
    destruct (analyze_each BBANDS RSI SMA strategies sym data); [|reflexivity].
    cbn [Py.bind concat]. rewrite app_assoc. reflexivity.
Qed.

(** X24.  For one symbol the signals come out in the order of the
    strategies: the inner loop returns what was collected before, followed
    by each strategy's signals in turn, and raises what the first failing
    strategy raises. *)
Theorem signals_follow_strategy_order (strategies : list Strategy) (sym : string)
    (data : DataFrame) (acc : list TradeSignal) :
  analyze_symbol strategies sym data acc
  = (do found <- analyze_each BBANDS RSI SMA strategies sym data;
     Py.Ok (acc ++ concat found))
  /\ forall s1 s2 found1 found2,
       strategies = [s1; s2] ->
       analyze BBANDS RSI SMA s1 sym data = Py.Ok found1 ->
       analyze BBANDS RSI SMA s2 sym data = Py.Ok found2 ->
       analyze_symbol strategies sym data acc = Py.Ok (acc ++ found1 ++ found2).
Proof.
  split; [apply analyze_symbol_each|].
  intros s1 s2 found1 found2 -> H1 H2.
  rewrite analyze_symbol_each. cbn [analyze_each].
  rewrite H1, H2. cbn [Py.bind concat]. rewrite app_nil_r. reflexivity.
Qed.

Lemma analyze_shaped (self : Strategy) (sym : string)
    (data : DataFrame) (signals : list TradeSignal) :
  analyze BBANDS RSI SMA self sym data = Py.Ok signals ->
  (length signals <= 1)%nat /\ Forall (signal_shape sym) signals.
Proof.
  intros H. unfold analyze in H. destruct (cls self) eqn:Hc.
  - discriminate H.
  - unfold analyze_mean_reversion in H.
    destruct (len data <? _)%Z.
    + injection H as <-. split; [cbn; lia | constructor].
    + destruct (mean_reversion_signals BBANDS RSI self sym data)
        as [candidates|e] eqn:Hcand; [|discriminate H].
      cbn [Py.bind] in H. injection H as <-.
      destruct (candidates_shape BBANDS RSI self sym data candidates Hcand)
        as [Hlen Hshape].
      split.
      * eapply Nat.le_trans; [apply List.filter_length_le | exact Hlen].
      * apply List.Forall_forall. intros s Hin.
        apply filter_In in Hin. destruct Hin as [Hin _].
        rewrite List.Forall_forall in Hshape. apply Hshape, Hin.
  - rewrite (momentum_returns_nothing SMA self sym data signals Hc H).
    split; [cbn; lia | constructor].
  - rewrite (breakout_returns_nothing self sym data signals Hc H).
    split; [cbn; lia | constructor].
Qed.

Lemma analyze_symbol_adds (strategies : list Strategy) (sym : string)
    (data : DataFrame) (acc out : list TradeSignal) :
  analyze_symbol strategies sym data acc = Py.Ok out ->
  exists found, out = acc ++ found
    /\ Forall (signal_shape sym) found
    /\ (length found <= length strategies)%nat.
Proof.
  revert acc. induction strategies as [|s strategies IH]; intros acc H.
  - cbn in H. injection H as <-. exists []. rewrite app_nil_r.
    repeat split; [constructor | cbn; lia].
  - cbn [Markets.analyze_symbol] in H.
    destruct (analyze BBANDS RSI SMA s sym data) as [found|e] eqn:E;
      [|discriminate H].
    cbn [Py.bind] in H.
    destruct (IH _ H) as (more & -> & Hshape & Hlen).
    destruct (analyze_shaped s sym data found E) as [Hl Hs].
    exists (found ++ more). rewrite app_assoc. split; [reflexivity|]. split.
    + apply Forall_app. split; assumption.
    + rewrite length_app. cbn [length]. lia.
Qed.

Lemma analyze_watchlist_adds (strategies : list Strategy) (watchlist : list string)
    (acc out : list TradeSignal) (provider provider' : Provider) :
  analyze_watchlist strategies watchlist acc provider = (Py.Ok out, provider') ->
  exists found, out = acc ++ found
    /\ Forall (fun s => exists sym, In sym watchlist /\ signal_shape sym s) found
    /\ (length found <= length watchlist * length strategies)%nat.
Proof.
  revert acc provider. induction watchlist as [|sym watchlist IH];
    intros acc provider H.
  - cbn in H. injection H as <- _. exists []. rewrite app_nil_r.
    repeat split; [constructor | cbn; lia].
  - cbn [Markets.analyze_watchlist] in H.
    destruct (get_ohlcv sym provider) as [[data|e] provider1]; [|discriminate H].
    destruct (analyze_symbol strategies sym data acc) as [acc1|e] eqn:E;
      [|discriminate H].
    destruct (analyze_symbol_adds strategies sym data acc acc1 E)
      as (found1 & -> & Hs1 & Hl1).
    destruct (IH _ _ H) as (found2 & -> & Hs2 & Hl2).
    exists (found1 ++ found2). rewrite app_assoc. split; [reflexivity|]. split.
    + apply Forall_app. split.
      * eapply List.Forall_impl; [|exact Hs1].
        intros s Hs. exists sym. split; [left; reflexivity | exact Hs].
      * eapply List.Forall_impl; [|exact Hs2].
        intros s (sym' & Hin & Hs). exists sym'. split; [right; exact Hin | exact Hs].
    + rewrite length_app. cbn [length]. lia.
Qed.

(** X25.  A pass that returns gives at most one signal for each symbol of
    the watchlist and each strategy, and every signal in it is a limit
    order with a price, for a symbol of the watchlist, with a confidence
    above 0 and at most 1: no market order reaches the execution loop. *)
Theorem pass_returns_limit_orders
    (strategies : list Strategy) (watchlist : option (list string))
    (provider provider' : Provider) (signals : list TradeSignal) :
  _analyze_markets strategies watchlist provider = (Py.Ok signals, provider') ->
  Forall (fun s => exists sym,
            In sym (get watchlist ["BTC/USDT"%string]) /\ signal_shape sym s)
         signals
  /\ (length signals
      <= length (get watchlist ["BTC/USDT"%string]) * length strategies)%nat.
Proof.
  unfold Markets._analyze_markets. intros H.
  destruct (analyze_watchlist_adds _ _ _ _ _ _ H) as (found & -> & Hs & Hl).
  split; assumption.
Qed.

Lemma short_frame_empty (self : Strategy) (sym : string) (data : DataFrame) :
  cls self <> StrategyBase ->
  (len data < 2 * guard_window self)%Z ->
  analyze BBANDS RSI SMA self sym data = Py.Ok [].
Proof.
  intros Hc Hlen. unfold analyze, guard_window in *.
  destruct (cls self); [congruence| | |].
  - unfold analyze_mean_reversion.
    replace (len data <? _)%Z with true; [reflexivity|].
    symmetry. apply Z.ltb_lt. lia.
  - unfold analyze_momentum.
    replace (len data <? _)%Z with true; [reflexivity|].
    symmetry. apply Z.ltb_lt. lia.
  - unfold analyze_breakout.
    replace (len data <? _)%Z with true; [reflexivity|].
    symmetry. apply Z.ltb_lt. lia.
Qed.

(** X26.  When the provider returns, for every symbol, a frame shorter
    than twice the window each strategy tests, the whole pass returns the
    empty list, without an exception. *)
Theorem short_history_gives_empty_pass
    (strategies : list Strategy) (watchlist : option (list string))
    (provider : Provider) :
  Forall (fun s => cls s <> StrategyBase) strategies ->
  (forall sym p, exists data p',
      get_ohlcv sym p = (Py.Ok data, p')
      /\ Forall (fun s => (len data < 2 * guard_window s)%Z) strategies) ->
  fst (_analyze_markets strategies watchlist provider) = Py.Ok [].
Proof.
  intros Hcls Hshort. unfold Markets._analyze_markets.
  assert (Hsym : forall sym data acc,
             Forall (fun s => (len data < 2 * guard_window s)%Z) strategies ->
             analyze_symbol strategies sym data acc = Py.Ok acc).
  { intros sym data. clear Hshort.
    induction strategies as [|s ss IH]; intros acc Hlen; [reflexivity|].
    cbn [Markets.analyze_symbol].
    apply List.Forall_cons_iff in Hcls, Hlen.
    rewrite (short_frame_empty s sym data (proj1 Hcls) (proj1 Hlen)).
    cbn [Py.bind]. rewrite app_nil_r.
    apply IH; [apply Hcls | apply Hlen]. }
  generalize (get watchlist ["BTC/USDT"%string]). intros wl. revert provider.
  induction wl as [|sym wl IH]; intros provider; [reflexivity|].
  cbn [Markets.analyze_watchlist].
  destruct (Hshort sym provider) as (data & p' & -> & Hlen).
  rewrite (Hsym sym data [] Hlen). apply IH.
Qed.

End PassFacts.

Lemma one_failure_fails_the_pass_witness :
  Markets._analyze_markets Samples.bands (Indicators.fixed_rsi 3) Indicators.sma
    unit Fixtures.failing_feed [Samples.mean_reversion_default]
    (Some ["BTC/USDT"; "ETH/USDT"]%string) tt
  = (Py.Err (Py.Exception "NetworkError"), tt)
  /\ exists e,
      Markets._analyze_markets Samples.bands (Indicators.fixed_rsi 3) Indicators.sma
        unit Fixtures.flat_feed
        [Samples.mean_reversion_default; Samples.breakout_default]
        (Some ["BTC/USDT"; "ETH/USDT"]%string) tt
      = (Py.Err e, tt).
Proof.
  split.
  - apply (proj1 (one_failure_fails_the_pass Samples.bands (Indicators.fixed_rsi 3)
                    Indicators.sma unit Fixtures.failing_feed
                    [Samples.mean_reversion_default] "BTC/USDT" ["ETH/USDT"%string]
                    tt tt)).
    reflexivity.
  - apply (proj2 (one_failure_fails_the_pass Samples.bands (Indicators.fixed_rsi 3)
                    Indicators.sma unit Fixtures.flat_feed
                    [Samples.mean_reversion_default; Samples.breakout_default]
                    "BTC/USDT" ["ETH/USDT"%string] tt tt)
             Samples.flat_40 Samples.breakout_default (Py.KeyError (-2))).
    + reflexivity.
    + right. left. reflexivity.
    + vm_compute. reflexivity.
Defined.

Lemma signals_follow_strategy_order_witness :
  exists s,
    Markets.analyze_symbol Samples.bands (Indicators.fixed_rsi 3) Indicators.sma
      [Samples.mean_reversion_default; Samples.momentum_default]
      "BTC/USDT" Samples.flat_40 []
    = Py.Ok ([] ++ [s] ++ []).
Proof.
  eexists.
  apply (proj2 (signals_follow_strategy_order Samples.bands (Indicators.fixed_rsi 3)
                  Indicators.sma
                  [Samples.mean_reversion_default; Samples.momentum_default]
                  "BTC/USDT" Samples.flat_40 [])
           Samples.mean_reversion_default Samples.momentum_default _ []
           eq_refl).
  - vm_compute. reflexivity.
  - vm_compute. reflexivity.
Defined.

Lemma pass_returns_limit_orders_witness :
  exists s,
    Markets._analyze_markets Samples.bands (Indicators.fixed_rsi 3) Indicators.sma
      unit Fixtures.flat_feed [Samples.mean_reversion_default] None tt
    = (Py.Ok [s], tt)
    /\ Forall (fun s => exists sym,
                 In sym ["BTC/USDT"%string] /\ signal_shape sym s) [s].
Proof.
  eexists. split; [vm_compute; reflexivity|].
  apply (proj1 (pass_returns_limit_orders Samples.bands (Indicators.fixed_rsi 3)
                  Indicators.sma unit Fixtures.flat_feed
                  [Samples.mean_reversion_default] None tt tt _ eq_refl)).
Defined.

Lemma short_history_gives_empty_pass_witness :
  fst (Markets._analyze_markets Samples.bands (Indicators.fixed_rsi 3)
         Indicators.sma unit Fixtures.short_feed
         [Samples.mean_reversion_default; Samples.momentum_default;
          Samples.breakout_default]
         (Some ["BTC/USDT"; "ETH/USDT"]%string) tt)
  = Py.Ok [].
Proof.
  apply short_history_gives_empty_pass.
  - repeat constructor; discriminate.
  - intros sym p. exists Samples.three_candles, p. split; [reflexivity|].
    repeat constructor.
Defined.
